(** * LePlay consent form: a shallow embedding of [consent.js]

    The script drives a three step form (mobile number, parent and children
    details, consent text with signature).  The page is modelled as a record
    of the DOM nodes the script touches, every function of the script as a
    computation over that record that either completes or throws, and the
    two network calls as computations that take the outcome of the request
    as an argument. *)

From Stdlib Require Import ZArith NArith Lia Ascii String DecimalString.
From stdpp Require Import base list.
Import ListNotations.

Open Scope bool_scope.

(** ** JavaScript values used by the script *)

Module JS.

(** A JavaScript string is a sequence of UTF-16 code units. *)
Definition jsstr := list N.

(** String literal of the source whose characters are all ASCII. *)
Definition js (s : string) : jsstr :=
  map N_of_ascii (list_ascii_of_string s).

Definition code_eqb (a b : N) : bool := N.eqb a b.

Fixpoint jsstr_eqb (a b : jsstr) : bool :=
  match a, b with
  | [], [] => true
  | x :: a', y :: b' => code_eqb x y && jsstr_eqb a' b'
  | _, _ => false
  end.

(** [ToBoolean] on a string: the empty string is the only falsy one. *)
Definition truthy (s : jsstr) : bool :=
  match s with [] => false | _ :: _ => true end.

(** [a || b] on strings. *)
Definition or_else (a b : jsstr) : jsstr := if truthy a then a else b.

(** A property that may be absent: [None] is [undefined]. *)
Definition truthy_opt (o : option jsstr) : bool :=
  match o with Some s => truthy s | None => false end.

(** [a || b] where both sides may be [undefined]. *)
Definition or_else_opt (a b : option jsstr) : option jsstr :=
  if truthy_opt a then a else b.

(** A value placed in a template literal: [undefined] prints as the
    word. *)
Definition template_hole (o : option jsstr) : jsstr :=
  match o with Some s => s | None => js "undefined" end.

(** An element of [Array.prototype.join]: [undefined] prints as the empty
    string. *)
Definition join_item (o : option jsstr) : jsstr :=
  match o with Some s => s | None => [] end.

Fixpoint join (sep : jsstr) (items : list (option jsstr)) : jsstr :=
  match items with
  | [] => []
  | [x] => join_item x
  | x :: rest => join_item x ++ sep ++ join sep rest
  end.

(** [String(n)] for a non-negative integer. *)
Definition decimal (n : nat) : jsstr :=
  js (NilEmpty.string_of_uint (Nat.to_uint n)).

(** *** [String.prototype.trim] *)

(** WhiteSpace and LineTerminator code units of ECMAScript. *)
Definition is_space (c : N) : bool :=
  match c with
  | 9 | 10 | 11 | 12 | 13 | 32 | 160 => true
  | 5760 | 8232 | 8233 | 8239 | 8287 | 12288 | 65279 => true
  | _ => (8192 <=? c) && (c <=? 8202)
  end%N.

Fixpoint dropWhile (f : N -> bool) (s : jsstr) : jsstr :=
  match s with
  | [] => []
  | c :: s' => if f c then dropWhile f s' else s
  end.

Definition trimStart (s : jsstr) : jsstr := dropWhile is_space s.
Definition trimEnd (s : jsstr) : jsstr := rev (dropWhile is_space (rev s)).
Definition trim (s : jsstr) : jsstr := trimEnd (trimStart s).

(** *** Regular expressions

    The fragment of the regular expressions the script uses: character
    ranges, literal characters, sequencing and counted repetition, with
    optional anchors at both ends.  Every pattern of the fragment matches
    at most one prefix of a string, so the matcher returns the rest of
    the string after the match. *)

Inductive Pattern :=
| PRange (lo hi : N)
| PChar (c : N)
| PSeq (p q : Pattern)
| PRepeat (n : nat) (p : Pattern).

Fixpoint match_prefix (p : Pattern) (s : jsstr) : option jsstr :=
  match p with
  | PRange lo hi =>
      match s with
      | c :: s' => if (lo <=? c)%N && (c <=? hi)%N then Some s' else None
      | [] => None
      end
  | PChar c0 =>
      match s with
      | c :: s' => if code_eqb c c0 then Some s' else None
      | [] => None
      end
  | PSeq p q =>
      match match_prefix p s with
      | Some s' => match_prefix q s'
      | None => None
      end
  | PRepeat n p =>
      Nat.iter n
        (fun k s0 =>
           match match_prefix p s0 with Some s' => k s' | None => None end)
        Some s
  end.

Record RegExp := mkRegExp {
  anchor_start : bool;   (* the pattern begins with ^ *)
  body : Pattern;
  anchor_end : bool      (* the pattern ends with $ *)
}.

(** A match of the body that starts at the head of [s]. *)
Definition match_here (re : RegExp) (s : jsstr) : bool :=
  match match_prefix (body re) s with
  | Some rest => if anchor_end re then negb (truthy rest) else true
  | None => false
  end.

Fixpoint match_anywhere (re : RegExp) (s : jsstr) : bool :=
  match_here re s
  || match s with [] => false | _ :: s' => match_anywhere re s' end.

(** [re.test(s)] for a regular expression without flags. *)
Definition RegExp_test (re : RegExp) (s : jsstr) : bool :=
  if anchor_start re then match_here re s else match_anywhere re s.

(** [\d] and [\D]. *)
Definition digit : Pattern := PRange 48 57.
Definition is_digit (c : N) : bool := (48 <=? c)%N && (c <=? 57)%N.

(** [s.replace(/\D/g, '')]: every code unit that is not a digit is
    deleted. *)
Definition remove_non_digits (s : jsstr) : jsstr := List.filter is_digit s.

(** [s.slice(0, n)]. *)
Definition slice0 (n : nat) (s : jsstr) : jsstr := take n s.

(** [s.split(sep)] for a one-character separator. *)
Fixpoint split_on (sep : N) (s : jsstr) : list jsstr :=
  match s with
  | [] => [[]]
  | c :: s' =>
      if code_eqb c sep then [] :: split_on sep s'
      else match split_on sep s' with
           | w :: ws => (c :: w) :: ws
           | [] => [[c]]
           end
  end.

(** [s.includes(t)]. *)
Fixpoint starts_with (t s : jsstr) : bool :=
  match t, s with
  | [], _ => true
  | x :: t', y :: s' => code_eqb x y && starts_with t' s'
  | _ :: _, [] => false
  end.

Fixpoint includes (t s : jsstr) : bool :=
  starts_with t s
  || match s with [] => false | _ :: s' => includes t s' end.

(** *** Exceptions *)

Inductive Exn :=
| ReferenceError (name : string)   (* an identifier that is not defined *)
| TypeError (what : string)        (* a property read on null *)
| FetchFailed                      (* fetch() rejected: no response *)
| JsonSyntaxError                  (* the body of a response is not JSON *)
| Error (message : jsstr).         (* new Error(message) *)

End JS.

(** ** Dates *)

Module JSDate.
Import JS.

Local Open Scope Z_scope.

Definition msPerDay : Z := 86400000.
Definition msPerMinute : Z := 60000.

(** Day number (days since 1970-01-01) of a day of the proleptic
    Gregorian calendar; [m] is in 1..12. *)
Definition days_from_civil (y m d : Z) : Z :=
  let y' := if m <=? 2 then y - 1 else y in
  let era := y' / 400 in
  let yoe := y' - era * 400 in
  let mp := (m + 9) mod 12 in
  let doy := (153 * mp + 2) / 5 + d - 1 in
  let doe := yoe * 365 + yoe / 4 - yoe / 100 + doy in
  era * 146097 + doe - 719468.

Definition is_leap (y : Z) : bool :=
  ((y mod 4 =? 0) && negb (y mod 100 =? 0)) || (y mod 400 =? 0).

Definition days_in_month (y m : Z) : Z :=
  if m =? 2 then (if is_leap y then 29 else 28)
  else if (m =? 4) || (m =? 6) || (m =? 9) || (m =? 11) then 30
  else 31.

(** [MakeDay(year, month, date)] of ECMAScript: [month] counts from 0 and
    may overflow into the neighbouring years, [date] may overflow into the
    neighbouring months. *)
Definition MakeDay (year month date : Z) : Z :=
  let ym := year + month / 12 in
  let mn := month mod 12 in
  days_from_civil ym (mn + 1) 1 + date - 1.

(** What the script reads from its environment: the local calendar fields
    of [new Date()], the offset of local time from UTC in minutes (local =
    UTC + offset), the result of [Date.parse] on strings that are not a
    plain [YYYY-MM-DD] calendar date (implementation-defined), the value
    flatpickr leaves in an input it is attached to with a given latest
    date and default date, and the message text of an error raised by
    the engine. *)
Record Env := mkEnv {
  getFullYear : Z;
  getMonth : Z;               (* 0..11 *)
  getDate : Z;                (* 1..31 *)
  tz_offset_minutes : Z;
  parse_other : jsstr -> option Z;
  flatpickr_value : Z -> option jsstr -> jsstr;
  engine_message : Exn -> jsstr
}.

(** [err.message]. *)
Definition message_of (env : Env) (e : Exn) : jsstr :=
  match e with
  | Error m => m
  | _ => engine_message env e
  end.

(** [new Date(y, m, d).getTime()]: local midnight of that day. *)
Definition Date_local (env : Env) (y m d : Z) : Z :=
  let y' := if (0 <=? y) && (y <=? 99) then 1900 + y else y in
  MakeDay y' m d * msPerDay - tz_offset_minutes env * msPerMinute.

Definition digit_value (c : N) : Z := Z.of_N c - 48.

Fixpoint number_of (acc : Z) (ds : jsstr) : Z :=
  match ds with
  | [] => acc
  | c :: ds' => number_of (acc * 10 + digit_value c) ds'
  end.

(** The date-only ISO form [YYYY-MM-DD]. *)
Definition parse_ymd (s : jsstr) : option (Z * Z * Z) :=
  match s with
  | [y1; y2; y3; y4; h1; m1; m2; h2; d1; d2] =>
      if forallb is_digit [y1; y2; y3; y4; m1; m2; d1; d2]
         && code_eqb h1 45 && code_eqb h2 45
      then Some (number_of 0 [y1; y2; y3; y4],
                 number_of 0 [m1; m2], number_of 0 [d1; d2])
      else None
  | _ => None
  end.

(** [new Date(s).getTime()], [None] for NaN.  A date-only ISO string is
    midnight of that day in UTC. *)
Definition Date_parse (env : Env) (s : jsstr) : option Z :=
  match parse_ymd s with
  | Some (y, m, d) =>
      if (1 <=? m) && (m <=? 12) && (1 <=? d) && (d <=? days_in_month y m)
      then Some (days_from_civil y m d * msPerDay)
      else parse_other env s
  | None => parse_other env s
  end.

End JSDate.

(** ** The document *)

Module Dom.
Import JS.

Record Element := mkElement {
  tagName : string;
  classList : list string;
  e_id : jsstr;
  e_type : string;
  textContent : jsstr;
  value : jsstr;
  placeholder : jsstr;
  required : bool;
  readOnly : bool;
  disabled : bool;
  display : jsstr;            (* style.display *)
  backgroundColor : jsstr;    (* style.backgroundColor *)
  marginTop : jsstr           (* style.marginTop *)
}.

(** [document.createElement(tag)]. *)
Definition createElement (tag : string) : Element :=
  mkElement tag [] [] EmptyString [] [] [] false false false [] [] [].

Definition set_className (c : list string) (e : Element) : Element :=
  mkElement (tagName e) c (e_id e) (e_type e) (textContent e) (value e)
    (placeholder e) (required e) (readOnly e) (disabled e) (display e)
    (backgroundColor e) (marginTop e).

Definition set_id (i : jsstr) (e : Element) : Element :=
  mkElement (tagName e) (classList e) i (e_type e) (textContent e) (value e)
    (placeholder e) (required e) (readOnly e) (disabled e) (display e)
    (backgroundColor e) (marginTop e).

Definition set_type (t : string) (e : Element) : Element :=
  mkElement (tagName e) (classList e) (e_id e) t (textContent e) (value e)
    (placeholder e) (required e) (readOnly e) (disabled e) (display e)
    (backgroundColor e) (marginTop e).

Definition set_textContent (t : jsstr) (e : Element) : Element :=
  mkElement (tagName e) (classList e) (e_id e) (e_type e) t (value e)
    (placeholder e) (required e) (readOnly e) (disabled e) (display e)
    (backgroundColor e) (marginTop e).

Definition set_value (v : jsstr) (e : Element) : Element :=
  mkElement (tagName e) (classList e) (e_id e) (e_type e) (textContent e) v
    (placeholder e) (required e) (readOnly e) (disabled e) (display e)
    (backgroundColor e) (marginTop e).

Definition set_placeholder (p : jsstr) (e : Element) : Element :=
  mkElement (tagName e) (classList e) (e_id e) (e_type e) (textContent e)
    (value e) p (required e) (readOnly e) (disabled e) (display e)
    (backgroundColor e) (marginTop e).

Definition set_required (b : bool) (e : Element) : Element :=
  mkElement (tagName e) (classList e) (e_id e) (e_type e) (textContent e)
    (value e) (placeholder e) b (readOnly e) (disabled e) (display e)
    (backgroundColor e) (marginTop e).

Definition set_readOnly (b : bool) (e : Element) : Element :=
  mkElement (tagName e) (classList e) (e_id e) (e_type e) (textContent e)
    (value e) (placeholder e) (required e) b (disabled e) (display e)
    (backgroundColor e) (marginTop e).

Definition set_disabled (b : bool) (e : Element) : Element :=
  mkElement (tagName e) (classList e) (e_id e) (e_type e) (textContent e)
    (value e) (placeholder e) (required e) (readOnly e) b (display e)
    (backgroundColor e) (marginTop e).

Definition set_display (d : jsstr) (e : Element) : Element :=
  mkElement (tagName e) (classList e) (e_id e) (e_type e) (textContent e)
    (value e) (placeholder e) (required e) (readOnly e) (disabled e) d
    (backgroundColor e) (marginTop e).

Definition set_backgroundColor (c : jsstr) (e : Element) : Element :=
  mkElement (tagName e) (classList e) (e_id e) (e_type e) (textContent e)
    (value e) (placeholder e) (required e) (readOnly e) (disabled e)
    (display e) c (marginTop e).

Definition set_marginTop (m : jsstr) (e : Element) : Element :=
  mkElement (tagName e) (classList e) (e_id e) (e_type e) (textContent e)
    (value e) (placeholder e) (required e) (readOnly e) (disabled e)
    (display e) (backgroundColor e) m.

(** A [div.child-group]: its [data-index] attribute and its child
    elements in document order. *)
Record Group := mkGroup {
  dataset_index : jsstr;
  kids : list Element
}.

(** A child of [#childrenContainer]: a child group or any other element
    (the script appends an error [div] there). *)
Inductive Node :=
| GroupNode (g : Group)
| ElemNode (e : Element).

(** The selectors of the script. *)
Inductive Selector :=
| SelClass (c : string)                      (* .c *)
| SelIdPrefix (tag : string) (p : jsstr)     (* tag[id^='p'] *)
| SelType (tag : string) (t : string).       (* tag[type="t"] *)

Definition has_class (c : string) (e : Element) : bool :=
  existsb (String.eqb c) (classList e).

Definition matches (sel : Selector) (e : Element) : bool :=
  match sel with
  | SelClass c => has_class c e
  | SelIdPrefix tag p => String.eqb (tagName e) tag && starts_with p (e_id e)
  | SelType tag t => String.eqb (tagName e) tag && String.eqb (e_type e) t
  end.

(** Position of the first element that matches, as [querySelector] finds
    it inside a group. *)
Fixpoint find_index (sel : Selector) (es : list Element) : option nat :=
  match es with
  | [] => None
  | e :: es' =>
      if matches sel e then Some 0%nat
      else option_map S (find_index sel es')
  end.

Definition querySelector (sel : Selector) (g : Group) : option Element :=
  match find_index sel (kids g) with
  | Some i => kids g !! i
  | None => None
  end.

(** A write through a reference that [querySelector] returned; nothing
    happens when the reference is [null] (the script guards each write
    with [if (ref)]). *)
Definition update_at (i : option nat) (f : Element -> Element)
    (g : Group) : Group :=
  match i with
  | Some i => mkGroup (dataset_index g) (alter f i (kids g))
  | None => g
  end.

Definition appendChild (e : Element) (g : Group) : Group :=
  mkGroup (dataset_index g) (kids g ++ [e]).

(** [container.querySelectorAll('.child-group')]. *)
Fixpoint child_groups (nodes : list Node) : list Group :=
  match nodes with
  | [] => []
  | GroupNode g :: rest => g :: child_groups rest
  | ElemNode _ :: rest => child_groups rest
  end.

(** Apply [f i] to the [i]-th child group (counting from [n]), leaving
    the other children where they are. *)
Fixpoint map_groups_from (n : nat) (f : nat -> Group -> Group)
    (nodes : list Node) : list Node :=
  match nodes with
  | [] => []
  | GroupNode g :: rest => GroupNode (f n g) :: map_groups_from (S n) f rest
  | ElemNode e :: rest => ElemNode e :: map_groups_from n f rest
  end.

Definition map_groups := map_groups_from 0.

(** [container.removeChild(group)] for the [k]-th child group. *)
Fixpoint remove_group (k : nat) (nodes : list Node) : list Node :=
  match nodes with
  | [] => []
  | GroupNode g :: rest =>
      match k with
      | O => rest
      | S k' => GroupNode g :: remove_group k' rest
      end
  | ElemNode e :: rest => ElemNode e :: remove_group k rest
  end.

(** [container.querySelectorAll('.child-error').forEach(el => el.remove())]:
    the error elements go, both the ones directly in the container and the
    ones inside the groups. *)
Definition keep (e : Element) : bool := negb (has_class "child-error" e).

Fixpoint remove_child_errors (nodes : list Node) : list Node :=
  match nodes with
  | [] => []
  | GroupNode g :: rest =>
      GroupNode (mkGroup (dataset_index g) (List.filter keep (kids g)))
      :: remove_child_errors rest
  | ElemNode e :: rest =>
      if keep e then ElemNode e :: remove_child_errors rest
      else remove_child_errors rest
  end.

End Dom.

(** ** The page and the computations over it *)

Module Consent.
Import JS JSDate Dom.

(** The object [addChildGroup] receives: a child of the lookup response,
    seen through the properties the function reads ([None]: the property
    is absent). *)
Record ChildObj := mkChildObj {
  c_legalName : option jsstr;
  c_legalname : option jsstr;
  c_name : option jsstr;
  c_displayName : option jsstr;
  c_displayname : option jsstr;
  c_nick_name : option jsstr;
  c_nickname : option jsstr;
  c_dob : option jsstr
}.

(** The default argument [{}]. *)
Definition no_child : ChildObj :=
  mkChildObj None None None None None None None None.

(** An element of the array [getChildData] returns and
    [composeConsentText] reads. *)
Record ChildData := mkChildData {
  legalname : option jsstr;
  name : option jsstr;
  displayname : option jsstr;
  dob : option jsstr
}.

Record Payload := mkPayload {
  p_parentName : jsstr;
  p_mobile : jsstr;
  p_children : list ChildData;
  p_signature : jsstr
}.

(** The two requests of the script, by what varies in them (the query
    parameter of the lookup, the JSON body of the submission). *)
Inductive Request :=
| GetConsent (mobile : jsstr)
| PostConsent (payload : Payload).

(** [data] of a lookup response: [children] is [None] when the property
    is not an array. *)
Record ConsentData := mkConsentData {
  parentName : option jsstr;
  children : option (list ChildObj)
}.

(** The parsed body of a lookup response, through the properties the
    script reads: whether [json.exists] is truthy, [json.data] when it is
    truthy, and the [parentName] and [children] of [json] itself. *)
Inductive LookupJson :=
| JFalsy
| JValue (exists_ : bool) (data : option ConsentData) (own : ConsentData).

(** The parsed body of a submission response. *)
Inductive SubmitJson :=
| SNull
| SValue (success : bool) (message : option jsstr).

(** What the network answers to a request: nothing ([fetch] rejects), or
    a response, whose body may fail to parse as JSON. *)
Inductive Fetched (J : Type) :=
| NoResponse
| Response (ok : bool) (status : nat) (text : jsstr) (json : option J).
Arguments NoResponse {J}.
Arguments Response {J} ok status text json.

Record Page := mkPage {
  step1_active : bool;
  step2_active : bool;
  step3_active : bool;
  parentNameInput : Element;
  mobileNumberInput : Element;
  parentNameError : Element;
  mobileNumberError : Element;
  childrenContainer : list Node;
  parentNameSection : Element;
  finishBtn : Element;
  consentTextDiv : Element;
  signaturePad_isEmpty : bool;
  signaturePad_dataURL : jsstr;
  isExistingCustomer : bool;
  alerts : list jsstr;          (* messages shown with alert(), oldest first *)
  requests : list Request;      (* calls of fetch(), oldest first *)
  location_href : option jsstr  (* mobile number of the completion page *)
}.

Definition set_steps (a b c : bool) (st : Page) : Page :=
  mkPage a b c (parentNameInput st) (mobileNumberInput st)
    (parentNameError st) (mobileNumberError st) (childrenContainer st)
    (parentNameSection st) (finishBtn st) (consentTextDiv st)
    (signaturePad_isEmpty st) (signaturePad_dataURL st)
    (isExistingCustomer st) (alerts st) (requests st) (location_href st).

Definition upd_parentNameInput (f : Element -> Element) (st : Page) : Page :=
  mkPage (step1_active st) (step2_active st) (step3_active st)
    (f (parentNameInput st)) (mobileNumberInput st)
    (parentNameError st) (mobileNumberError st) (childrenContainer st)
    (parentNameSection st) (finishBtn st) (consentTextDiv st)
    (signaturePad_isEmpty st) (signaturePad_dataURL st)
    (isExistingCustomer st) (alerts st) (requests st) (location_href st).

Definition upd_mobileNumberInput (f : Element -> Element) (st : Page) : Page :=
  mkPage (step1_active st) (step2_active st) (step3_active st)
    (parentNameInput st) (f (mobileNumberInput st))
    (parentNameError st) (mobileNumberError st) (childrenContainer st)
    (parentNameSection st) (finishBtn st) (consentTextDiv st)
    (signaturePad_isEmpty st) (signaturePad_dataURL st)
    (isExistingCustomer st) (alerts st) (requests st) (location_href st).

Definition upd_parentNameError (f : Element -> Element) (st : Page) : Page :=
  mkPage (step1_active st) (step2_active st) (step3_active st)
    (parentNameInput st) (mobileNumberInput st)
    (f (parentNameError st)) (mobileNumberError st) (childrenContainer st)
    (parentNameSection st) (finishBtn st) (consentTextDiv st)
    (signaturePad_isEmpty st) (signaturePad_dataURL st)
    (isExistingCustomer st) (alerts st) (requests st) (location_href st).

Definition upd_mobileNumberError (f : Element -> Element) (st : Page) : Page :=
  mkPage (step1_active st) (step2_active st) (step3_active st)
    (parentNameInput st) (mobileNumberInput st)
    (parentNameError st) (f (mobileNumberError st)) (childrenContainer st)
    (parentNameSection st) (finishBtn st) (consentTextDiv st)
    (signaturePad_isEmpty st) (signaturePad_dataURL st)
    (isExistingCustomer st) (alerts st) (requests st) (location_href st).

Definition upd_childrenContainer (f : list Node -> list Node) (st : Page)
    : Page :=
  mkPage (step1_active st) (step2_active st) (step3_active st)
    (parentNameInput st) (mobileNumberInput st)
    (parentNameError st) (mobileNumberError st) (f (childrenContainer st))
    (parentNameSection st) (finishBtn st) (consentTextDiv st)
    (signaturePad_isEmpty st) (signaturePad_dataURL st)
    (isExistingCustomer st) (alerts st) (requests st) (location_href st).

Definition upd_parentNameSection (f : Element -> Element) (st : Page) : Page :=
  mkPage (step1_active st) (step2_active st) (step3_active st)
    (parentNameInput st) (mobileNumberInput st)
    (parentNameError st) (mobileNumberError st) (childrenContainer st)
    (f (parentNameSection st)) (finishBtn st) (consentTextDiv st)
    (signaturePad_isEmpty st) (signaturePad_dataURL st)
    (isExistingCustomer st) (alerts st) (requests st) (location_href st).

Definition upd_finishBtn (f : Element -> Element) (st : Page) : Page :=
  mkPage (step1_active st) (step2_active st) (step3_active st)
    (parentNameInput st) (mobileNumberInput st)
    (parentNameError st) (mobileNumberError st) (childrenContainer st)
    (parentNameSection st) (f (finishBtn st)) (consentTextDiv st)
    (signaturePad_isEmpty st) (signaturePad_dataURL st)
    (isExistingCustomer st) (alerts st) (requests st) (location_href st).

Definition upd_consentTextDiv (f : Element -> Element) (st : Page) : Page :=
  mkPage (step1_active st) (step2_active st) (step3_active st)
    (parentNameInput st) (mobileNumberInput st)
    (parentNameError st) (mobileNumberError st) (childrenContainer st)
    (parentNameSection st) (finishBtn st) (f (consentTextDiv st))
    (signaturePad_isEmpty st) (signaturePad_dataURL st)
    (isExistingCustomer st) (alerts st) (requests st) (location_href st).

Definition set_signaturePad_isEmpty (b : bool) (st : Page) : Page :=
  mkPage (step1_active st) (step2_active st) (step3_active st)
    (parentNameInput st) (mobileNumberInput st)
    (parentNameError st) (mobileNumberError st) (childrenContainer st)
    (parentNameSection st) (finishBtn st) (consentTextDiv st)
    b (signaturePad_dataURL st)
    (isExistingCustomer st) (alerts st) (requests st) (location_href st).

Definition set_isExistingCustomer (b : bool) (st : Page) : Page :=
  mkPage (step1_active st) (step2_active st) (step3_active st)
    (parentNameInput st) (mobileNumberInput st)
    (parentNameError st) (mobileNumberError st) (childrenContainer st)
    (parentNameSection st) (finishBtn st) (consentTextDiv st)
    (signaturePad_isEmpty st) (signaturePad_dataURL st)
    b (alerts st) (requests st) (location_href st).

Definition push_alert (msg : jsstr) (st : Page) : Page :=
  mkPage (step1_active st) (step2_active st) (step3_active st)
    (parentNameInput st) (mobileNumberInput st)
    (parentNameError st) (mobileNumberError st) (childrenContainer st)
    (parentNameSection st) (finishBtn st) (consentTextDiv st)
    (signaturePad_isEmpty st) (signaturePad_dataURL st)
    (isExistingCustomer st) (alerts st ++ [msg]) (requests st)
    (location_href st).

Definition push_request (r : Request) (st : Page) : Page :=
  mkPage (step1_active st) (step2_active st) (step3_active st)
    (parentNameInput st) (mobileNumberInput st)
    (parentNameError st) (mobileNumberError st) (childrenContainer st)
    (parentNameSection st) (finishBtn st) (consentTextDiv st)
    (signaturePad_isEmpty st) (signaturePad_dataURL st)
    (isExistingCustomer st) (alerts st) (requests st ++ [r])
    (location_href st).

Definition set_location_href (m : jsstr) (st : Page) : Page :=
  mkPage (step1_active st) (step2_active st) (step3_active st)
    (parentNameInput st) (mobileNumberInput st)
    (parentNameError st) (mobileNumberError st) (childrenContainer st)
    (parentNameSection st) (finishBtn st) (consentTextDiv st)
    (signaturePad_isEmpty st) (signaturePad_dataURL st)
    (isExistingCustomer st) (alerts st) (requests st) (Some m).

(** *** Computations: state and exceptions

    A statement of the script runs on a page and either completes with a
    value or throws; in both cases the page keeps the writes made so
    far. *)

Inductive Completion (A : Type) :=
| Normal (a : A)
| Throw (e : Exn).
Arguments Normal {A} a.
Arguments Throw {A} e.

Record M (A : Type) := mkM { run : Page -> Completion A * Page }.
Arguments mkM {A} run.
Arguments run {A} m st.

#[export] Instance M_ret : MRet M := fun A a => mkM (fun st => (Normal a, st)).

#[export] Instance M_bind : MBind M := fun A B f m =>
  mkM (fun st =>
         match run m st with
         | (Normal a, st') => run (f a) st'
         | (Throw e, st') => (Throw e, st')
         end).

Definition throw {A} (e : Exn) : M A := mkM (fun st => (Throw e, st)).
Definition get : M Page := mkM (fun st => (Normal st, st)).
Definition modify (f : Page -> Page) : M unit :=
  mkM (fun st => (Normal tt, f st)).

(** [try { body } catch (err) { handler }]. *)
Definition try_catch {A} (body : M A) (handler : Exn -> M A) : M A :=
  mkM (fun st =>
         match run body st with
         | (Normal a, st') => (Normal a, st')
         | (Throw e, st') => run (handler e) st'
         end).

(** [try { body } finally { fin }]. *)
Definition try_finally {A} (body : M A) (fin : M unit) : M A :=
  mkM (fun st =>
         match run body st with
         | (r, st') =>
             match run fin st' with
             | (Normal _, st'') => (r, st'')
             | (Throw e, st'') => (Throw e, st'')
             end
         end).

(** [xs.forEach(f)]. *)
Fixpoint forEach {A} (f : A -> M unit) (xs : list A) : M unit :=
  match xs with
  | [] => mret tt
  | x :: xs' => f x;; forEach f xs'
  end.

(** A [forEach] whose callback updates a variable of the enclosing
    function. *)
Fixpoint foldM {A B} (f : B -> A -> M B) (b : B) (xs : list A) : M B :=
  match xs with
  | [] => mret b
  | x :: xs' => b' ← f b x; foldM f b' xs'
  end.

Definition alert (msg : jsstr) : M unit := modify (push_alert msg).

(** Evaluation of an identifier that no scope around the expression
    declares. *)
Definition undeclared (name : string) : M Element :=
  throw (ReferenceError name).

(** [await fetch(request)], given what the network answers. *)
Definition fetch {J} (r : Request) (net : Fetched J)
    : M (bool * nat * jsstr * option J) :=
  modify (push_request r);;
  match net with
  | NoResponse => throw FetchFailed
  | Response ok status text json => mret (ok, status, text, json)
  end.

(** [await response.json()]. *)
Definition response_json {J} (json : option J) : M J :=
  match json with
  | Some j => mret j
  | None => throw JsonSyntaxError
  end.

Section Script.

Variable env : Env.

(** Lines 67-69: the latest date of birth flatpickr lets the user
    pick. *)
Definition twoYearsAgoDate : Z :=
  Date_local env (getFullYear env - 2) (getMonth env) (getDate env).

(** Lines 76-83. *)
Definition setupDatePicker (input : Element) (defaultValue : option jsstr)
    : Element :=
  let defaultDate := or_else_opt defaultValue None in
  set_value (flatpickr_value env twoYearsAgoDate defaultDate) input.

(** Lines 89-100. *)
Definition showStep (stepIndex : nat) : M unit :=
  modify (set_steps false false false);;
  match stepIndex with
  | 1 => modify (set_steps true false false)
  | 2 => modify (set_steps false true false)
  | 3 => modify (set_steps false false true)
  | _ => mret tt
  end.

(** [/^[6-9][0-9]{9}$/] *)
Definition mobileRegex : RegExp :=
  mkRegExp true (PSeq (PRange 54 57) (PRepeat 9 (PRange 48 57))) true.

Definition invalid_mobile_message : jsstr :=
  js "Please enter a valid 10" ++ [8209%N]
  ++ js "digit Indian mobile number starting with 6" ++ [8211%N] ++ js "9.".

(** Lines 109-120. *)
Definition validateMobile : M bool :=
  st ← get;
  let mobile := trim (value (mobileNumberInput st)) in
  modify (upd_mobileNumberError (set_display (js "none")));;
  if negb (RegExp_test mobileRegex mobile) then
    modify (upd_mobileNumberError (set_textContent invalid_mobile_message));;
    modify (upd_mobileNumberError (set_display (js "block")));;
    mret false
  else mret true.

(** Lines 125-138. *)
Definition validateParentNameIfNeeded : M bool :=
  modify (upd_parentNameError (set_display (js "none")));;
  st ← get;
  if isExistingCustomer st then mret true
  else
    let name := trim (value (parentNameInput st)) in
    if negb (truthy name) then
      modify (upd_parentNameError
                (set_textContent (js "Please enter your name.")));;
      modify (upd_parentNameError (set_display (js "block")));;
      mret false
    else mret true.

(** Lines 143-145. *)
Definition clearChildren : M unit :=
  modify (upd_childrenContainer (fun _ => [])).

(** [/\d{4}-\d{2}-\d{2}/] and [/\d{2}\/\d{2}\/\d{4}/] *)
Definition isoDateRegex : RegExp :=
  mkRegExp false
    (PSeq (PRepeat 4 digit)
       (PSeq (PChar 45) (PSeq (PRepeat 2 digit)
          (PSeq (PChar 45) (PRepeat 2 digit))))) false.

Definition slashDateRegex : RegExp :=
  mkRegExp false
    (PSeq (PRepeat 2 digit)
       (PSeq (PChar 47) (PSeq (PRepeat 2 digit)
          (PSeq (PChar 47) (PRepeat 4 digit))))) false.

(** The first truthy string of an [a || b || ... || ''] chain. *)
Definition or_empty (o : option jsstr) : jsstr :=
  match o with Some s => s | None => [] end.

(** Lines 152-248.  The statement at line 239 reads [dobHint], whose
    declaration (lines 198-203) is commented out: no scope of the script
    declares the name, so the read throws and the statements after it,
    written out below, do not run. *)
Definition addChildGroup (child : ChildObj) : M unit :=
  st ← get;
  let groupIndex := (length (child_groups (childrenContainer st)) + 1)%nat in
  let group := mkGroup (decimal groupIndex) [] in
  (* header *)
  let header := set_className ["child-header"%string] (createElement "div") in
  let header := set_textContent (js "Child " ++ decimal groupIndex) header in
  let group := appendChild header group in
  (* legal name *)
  let nameLabel := set_textContent (js "Legal Name") (createElement "label") in
  let nameInput := set_type "text" (createElement "input") in
  let nameInput := set_required true nameInput in
  let legalName :=
    or_empty (or_else_opt (or_else_opt (or_else_opt (c_legalName child)
                 (c_legalname child)) (c_name child)) (Some [])) in
  let nameInput := set_value legalName nameInput in
  let nameInput :=
    set_placeholder (or_else legalName (js "Child's legal full name"))
      nameInput in
  let nameInput := set_id (js "childName" ++ decimal groupIndex) nameInput in
  (* display name *)
  let displayNameLabel :=
    set_textContent (js "Display Name") (createElement "label") in
  let displayNameInput := set_type "text" (createElement "input") in
  let displayNameInput := set_required false displayNameInput in
  let displayName :=
    or_empty
      (or_else_opt (or_else_opt (or_else_opt (or_else_opt (or_else_opt
         (c_displayName child) (c_displayname child)) (c_displayName child))
         (c_nick_name child)) (c_nickname child)) (Some [])) in
  let displayNameInput := set_value displayName displayNameInput in
  let displayNameInput :=
    set_placeholder
      (or_else displayName (js "Child's nickname or preferred name"))
      displayNameInput in
  let displayNameInput :=
    set_id (js "childDisplayName" ++ decimal groupIndex) displayNameInput in
  (* date of birth *)
  let dobLabel :=
    set_textContent (js "Date of Birth") (createElement "label") in
  let dobInput := set_type "text" (createElement "input") in
  let dobInput := set_required true dobInput in
  let dobInput := set_id (js "childDOB" ++ decimal groupIndex) dobInput in
  let dobInput := set_readOnly true dobInput in
  let dobInput := set_placeholder (js "dd/mm/yyyy") dobInput in
  let prepopDate :=
    match c_dob child with
    | Some d =>
        if truthy d then
          if RegExp_test isoDateRegex d then Some d
          else if RegExp_test slashDateRegex d then
            let parts := split_on 47 d in
            Some (template_hole (parts !! 2%nat) ++ js "-"
                  ++ template_hole (parts !! 1%nat) ++ js "-"
                  ++ template_hole (parts !! 0%nat))
          else None
        else None
    | None => None
    end in
  let removeBtn := set_type "button" (createElement "button") in
  let removeBtn := set_textContent (js "Remove") removeBtn in
  let removeBtn := set_backgroundColor (js "#ef4444") removeBtn in
  let removeBtn := set_marginTop (js "0.5rem") removeBtn in
  (* append in the new order *)
  let group := appendChild nameLabel group in
  let group := appendChild nameInput group in
  let group := appendChild displayNameLabel group in
  let group := appendChild displayNameInput group in
  let group := appendChild dobLabel group in
  dobHint ← undeclared "dobHint";
  let group := appendChild dobHint group in
  (* lines 244 and 247 write to dobInput and removeBtn after the group is
     attached; nothing reads them in between, the writes are made here *)
  let dobInput := setupDatePicker dobInput prepopDate in
  let removeBtn :=
    set_display (if (groupIndex =? 1)%nat then js "none" else []) removeBtn in
  let group := appendChild dobInput group in
  let group := appendChild removeBtn group in
  modify (upd_childrenContainer (fun nodes => nodes ++ [GroupNode group])).

Definition sel_name : Selector := SelIdPrefix "input" (js "childName").
Definition sel_displayName : Selector :=
  SelIdPrefix "input" (js "childDisplayName").
Definition sel_dob : Selector := SelIdPrefix "input" (js "childDOB").
Definition sel_header : Selector := SelClass "child-header".
Definition sel_button : Selector := SelType "button" "button".

(** Lines 254-268. *)
Definition getChildData : M (list ChildData) :=
  st ← get;
  let groups := child_groups (childrenContainer st) in
  foldM
    (fun data group =>
       match querySelector sel_name group with
       | None => throw (TypeError "nameInput is null")
       | Some nameInput =>
           match querySelector sel_displayName group with
           | None => throw (TypeError "displayNameInput is null")
           | Some displayNameInput =>
               match querySelector sel_dob group with
               | None => throw (TypeError "dobInput is null")
               | Some dobInput =>
                   mret (data ++
                           [mkChildData (Some (trim (value nameInput))) None
                              (Some (trim (value displayNameInput)))
                              (Some (value dobInput))])
               end
           end
       end)
    [] groups.

Definition error_span (text : jsstr) : Element :=
  set_textContent text
    (set_className ["error"%string; "child-error"%string]
       (createElement "span")).

(** The [k]-th child group of the container, and a write to it. *)
Definition group_at (k : nat) : M (option Group) :=
  st ← get; mret (child_groups (childrenContainer st) !! k).

Definition update_group (k : nat) (f : Group -> Group) : M unit :=
  modify (upd_childrenContainer
            (map_groups (fun i g => if (i =? k)%nat then f g else g))).

(** Lines 290-320: the callback of [groups.forEach] on the [k]-th group;
    [valid] is the variable of [validateChildren] it may clear. *)
Definition validate_group (valid : bool) (k : nat) : M bool :=
  g ← group_at k;
  match g with
  | None => mret valid
  | Some group =>
      match querySelector sel_name group with
      | None => throw (TypeError "nameInput is null")
      | Some nameInput =>
          if negb (truthy (trim (value nameInput))) then
            update_group k
              (appendChild
                 (error_span (js "Please enter legal name and date of birth.")));;
            mret false
          else
            match querySelector sel_dob group with
            | None => throw (TypeError "dobInput is null")
            | Some dobInput =>
                if negb (truthy (value dobInput)) then
                  update_group k
                    (appendChild
                       (error_span
                          (js "Please enter legal name and date of birth.")));;
                  mret false
                else
                  let twoYearsAgo :=
                    Date_local env (getFullYear env - 2) (getMonth env)
                      (getDate env) in
                  match Date_parse env (value dobInput) with
                  | None =>
                      update_group k
                        (appendChild
                           (error_span (js "Please select a valid date.")));;
                      mret false
                  | Some dobDate =>
                      if (twoYearsAgo <? dobDate)%Z then
                        update_group k
                          (appendChild
                             (error_span
                                (js "Child must be at least 2 years old.")));;
                        mret false
                      else mret valid
                  end
            end
      end
  end.

(** Lines 274-322. *)
Definition validateChildren : M bool :=
  st ← get;
  let groups := child_groups (childrenContainer st) in
  modify (upd_childrenContainer remove_child_errors);;
  if (length groups =? 0)%nat then
    addChildGroup no_child;;
    let error :=
      set_textContent (js "Please add at least one child.")
        (set_className ["error"%string; "child-error"%string]
           (createElement "div")) in
    modify (upd_childrenContainer (fun nodes => nodes ++ [ElemNode error]));;
    mret false
  else
    foldM validate_group true (seq 0 (length groups)).

Definition consent_tail : jsstr :=
  js ", hereby give consent for my child/children to participate in activities at LePlay "
  ++ [8211%N]
  ++ js " Little Engineers Playground, operated by FOREVER KID LLP. I acknowledge that participation involves inherent risks and agree that I will not hold the company liable for any injury or loss incurred while my child/children are on the premises. By signing below, I confirm that the information provided is accurate and that I have read and understood this consent form.".

(** Lines 329-337. *)
Definition composeConsentText (parentName : jsstr)
    (children : list ChildData) : jsstr :=
  let childNames :=
    join (js ", ")
      (map (fun c =>
              let legalName := or_else_opt (legalname c) (name c) in
              let displayName := displayname c in
              if truthy_opt displayName
              then Some (template_hole legalName ++ js " ("
                         ++ template_hole displayName ++ js ")")
              else legalName)
         children) in
  js "I, " ++ parentName ++ js ", as the parent/guardian of " ++ childNames
  ++ consent_tail.

(** Lines 345-364: the callback of [groups.forEach] with [i] the position
    of the group.  A reference that [querySelector] returns is kept as the
    position of the element among the children of the group. *)
Definition reindex_group (i : nat) (group : Group) : Group :=
  let n := (i + 1)%nat in
  let group := mkGroup (decimal n) (kids group) in
  (* update the section header *)
  let header := find_index sel_header (kids group) in
  let group :=
    update_at header (set_textContent (js "Child " ++ decimal n)) group in
  (* keep the input identifiers sequential *)
  let nameInput := find_index sel_name (kids group) in
  let displayNameInput := find_index sel_displayName (kids group) in
  let dobInput := find_index sel_dob (kids group) in
  let group :=
    update_at nameInput (set_id (js "childName" ++ decimal n)) group in
  let group :=
    update_at displayNameInput
      (set_id (js "childDisplayName" ++ decimal n)) group in
  let group :=
    update_at dobInput (set_id (js "childDOB" ++ decimal n)) group in
  (* first child cannot be removed *)
  let removeBtn := find_index sel_button (kids group) in
  update_at removeBtn
    (set_display (if (n =? 1)%nat then js "none" else [])) group.

(** Lines 343-365. *)
Definition reindexChildren : M unit :=
  modify (upd_childrenContainer (map_groups reindex_group)).

(** Lines 228-231: the click listener of the Remove button of the [k]-th
    child group (counting from 0). *)
Definition removeBtn_click (k : nat) : M unit :=
  modify (upd_childrenContainer (remove_group k));;
  reindexChildren.

(** Lines 371-384. *)
Definition populateExistingData (data : option ConsentData) : M unit :=
  match data with
  | None => mret tt
  | Some data =>
      (if truthy_opt (parentName data)
       then modify (upd_parentNameInput
                      (set_value (or_empty (parentName data))))
       else mret tt);;
      match children data with
      | Some cs => clearChildren;; forEach addChildGroup cs
      | None => mret tt
      end
  end.

(** Lines 390-408; [net] is what the network answers to the request. *)
Definition fetchExistingConsent (net : Fetched LookupJson) (mobile : jsstr)
    : M unit :=
  try_catch
    (response ← fetch (GetConsent mobile) net;
     let '(ok, _, _, body) := response in
     if negb ok then mret tt
     else
       json ← response_json body;
       match json with
       | JValue true data own =>
           modify (set_isExistingCustomer true);;
           populateExistingData
             (Some (match data with Some d => d | None => own end))
       | _ => modify (set_isExistingCustomer false)
       end)
    (fun err => modify (set_isExistingCustomer false)).

(** Lines 36-39, 415-418 and 443-446: the reset of the prefilled
    state. *)
Definition reset_prefill : M unit :=
  modify (set_isExistingCustomer false);;
  modify (upd_parentNameInput (set_readOnly false));;
  modify (upd_parentNameInput (set_value []));;
  modify (upd_childrenContainer (fun _ => [])).

(** Lines 33-40: the listener of the [input] event of the mobile number
    field, run on the page as the edit left it. *)
Definition mobileNumberInput_input : M unit :=
  modify (upd_mobileNumberInput
            (fun e => set_value (slice0 10 (remove_non_digits (value e))) e));;
  reset_prefill.

(** Lines 411-433. *)
Definition nextToDetailsBtn_click (net : Fetched LookupJson) : M unit :=
  ok ← validateMobile;
  if negb ok then mret tt
  else
    reset_prefill;;
    st ← get;
    let mobile := trim (value (mobileNumberInput st)) in
    fetchExistingConsent net mobile;;
    modify (upd_parentNameSection (set_display (js "block")));;
    st ← get;
    modify (upd_parentNameInput (set_readOnly (isExistingCustomer st)));;
    st ← get;
    (if (length (childrenContainer st) =? 0)%nat
     then addChildGroup no_child else mret tt);;
    showStep 2.

(** Lines 436-438. *)
Definition addChildBtn_click : M unit := addChildGroup no_child.

(** Lines 441-448. *)
Definition backToMobileBtn_click : M unit :=
  reset_prefill;;
  showStep 1.

(** Lines 451-463; [resizeCanvas] redraws the strokes of the signature
    and leaves the modelled page as it is. *)
Definition nextToConsentBtn_click : M unit :=
  ok ← validateParentNameIfNeeded;
  if negb ok then mret tt
  else
    ok ← validateChildren;
    if negb ok then mret tt
    else
      st ← get;
      let parentName := trim (value (parentNameInput st)) in
      children ← getChildData;
      let consent := composeConsentText parentName children in
      modify (upd_consentTextDiv (set_textContent consent));;
      showStep 3.

(** Lines 466-468 and 471-473. *)
Definition backToDetailsBtn_click : M unit := showStep 2.
Definition clearSignatureBtn_click : M unit :=
  modify (set_signaturePad_isEmpty true).

Definition already_submitted_message : jsstr :=
  [9888%N; 65039%N] ++ js " Form Already Submitted Today" ++ [10%N; 10%N]
  ++ js "This mobile number has already submitted a consent form today. "
  ++ [10%N; 10%N] ++ js "If you need to add more children, please:" ++ [10%N]
  ++ [8226%N] ++ js " Contact the facility staff, or" ++ [10%N]
  ++ [8226%N] ++ js " Try again tomorrow, or" ++ [10%N]
  ++ [8226%N] ++ js " Use a different mobile number" ++ [10%N; 10%N]
  ++ js "Note: You can register multiple children in a single form submission.".

(** Lines 494-581; [net] is what the network answers to the POST. *)
Definition finishBtn_click (net : Fetched SubmitJson) : M unit :=
  st ← get;
  if signaturePad_isEmpty st then
    alert (js "Please provide your signature before finishing.")
  else
    let mobile := trim (value (mobileNumberInput st)) in
    if negb (truthy mobile) then
      alert (js "Mobile number is missing. Please go back and enter your mobile number.")
    else
      let parentName := trim (value (parentNameInput st)) in
      children ← getChildData;
      let signatureDataUrl := signaturePad_dataURL st in
      let payload := mkPayload parentName mobile children signatureDataUrl in
      try_finally
        (try_catch
           (modify (upd_finishBtn (set_disabled true));;
            modify (upd_finishBtn
                      (set_textContent (js "Submitting" ++ [8230%N])));;
            response ← fetch (PostConsent payload) net;
            let '(ok, status, errorText, body) := response in
            (if negb ok then
               throw (Error (js "Failed to submit consent: "
                             ++ decimal status ++ js " - " ++ errorText))
             else mret tt);;
            result ← response_json body;
            match result with
            | SValue true _ => modify (set_location_href mobile)
            | SValue false message =>
                if truthy_opt message
                   && includes (js "already submitted") (or_empty message)
                then alert already_submitted_message
                else
                  alert (js "Submission failed: "
                         ++ or_empty
                              (or_else_opt message
                                 (Some (js "Unknown error. Please try again."))))
            | SNull => throw (TypeError "result is null")
            end)
           (fun err =>
              alert (js "An error occurred while submitting your consent: "
                     ++ message_of env err
                     ++ js ". Please try again later.")))
        (modify (upd_finishBtn (set_disabled false));;
         modify (upd_finishBtn (set_textContent (js "Finish")))).

End Script.

End Consent.

(** ** Properties: the vocabulary of the statements *)

Module Spec.
  Import JS JSDate Dom Consent.

(** The pattern in the words of the specification: exactly ten digits, the
    first of them 6 to 9. *)
Definition ten_digits_from_6_to_9 (s : jsstr) : bool :=
  (length s =? 10)%nat && forallb is_digit s
  && match s with c :: _ => (54 <=? c)%N && (c <=? 57)%N | [] => false end.

Definition in_range (lo hi c : N) : bool := (lo <=? c)%N && (c <=? hi)%N.


(** What the five selectors of [reindexChildren] say about an element. *)
Definition tags (e : Element) : bool * bool * bool * bool * bool :=
  (matches sel_header e, matches sel_name e, matches sel_displayName e,
   matches sel_dob e, matches sel_button e).

Definition script_selector (sel : Selector) : Prop :=
  sel = sel_header \/ sel = sel_name \/ sel = sel_displayName
  \/ sel = sel_dob \/ sel = sel_button.

Definition upd (o : option nat) (f : Element -> Element) (l : list Element)
  : list Element :=
  match o with Some i => alter f i l | None => l end.

Definition when (b : bool) (f : Element -> Element) : Element -> Element :=
  if b then f else fun e => e.

Definition at_pos (o : option nat) (j : nat) : bool :=
  match o with Some i => (i =? j)%nat | None => false end.

(** The writes [reindex_group] makes to the child at position [j] of a group
    whose children are [K]. *)
Definition relabel (n : nat) (K : list Element) (j : nat) (e : Element) : Element :=
  when (at_pos (find_index sel_button K) j)
       (set_display (if (n =? 1)%nat then js "none" else []))
    (when (at_pos (find_index sel_dob K) j) (set_id (js "childDOB" ++ decimal n))
      (when (at_pos (find_index sel_displayName K) j)
            (set_id (js "childDisplayName" ++ decimal n))
        (when (at_pos (find_index sel_name K) j) (set_id (js "childName" ++ decimal n))
          (when (at_pos (find_index sel_header K) j)
                (set_textContent (js "Child " ++ decimal n)) e)))).

(** The display label and the field identifiers of a child record. *)
Definition labels (g : Group)
  : jsstr * option jsstr * option jsstr * option jsstr * option jsstr :=
  (dataset_index g,
   textContent <$> querySelector sel_header g,
   e_id <$> querySelector sel_name g,
   e_id <$> querySelector sel_displayName g,
   e_id <$> querySelector sel_dob g).

(** The labels of the record with number [n]; an element the group [g] lacks
    has none. *)
Definition labels_for (n : nat) (g : Group)
  : jsstr * option jsstr * option jsstr * option jsstr * option jsstr :=
  (decimal n,
   (fun _ => js "Child " ++ decimal n) <$> querySelector sel_header g,
   (fun _ => js "childName" ++ decimal n) <$> querySelector sel_name g,
   (fun _ => js "childDisplayName" ++ decimal n)
     <$> querySelector sel_displayName g,
   (fun _ => js "childDOB" ++ decimal n) <$> querySelector sel_dob g).

(** What the user typed into a child record. *)
Definition fields (g : Group) : option jsstr * option jsstr * option jsstr :=
  (value <$> querySelector sel_name g,
   value <$> querySelector sel_displayName g,
   value <$> querySelector sel_dob g).

(** Whether the Remove button of a record is on display. *)
Definition removal_offered (g : Group) : bool :=
  match querySelector sel_button g with
  | Some b => negb (jsstr_eqb (display b) (js "none"))
  | None => false
  end.

(** A child record with all its parts: header, the three inputs and the
    Remove button. *)
Definition complete (g : Group) : bool :=
  forallb (fun sel => bool_decide (is_Some (querySelector sel g)))
    [sel_header; sel_name; sel_displayName; sel_dob; sel_button].

(** The labels of a complete record with number [n]. *)
Definition full_labels (n : nat)
  : jsstr * option jsstr * option jsstr * option jsstr * option jsstr :=
  (decimal n, Some (js "Child " ++ decimal n),
   Some (js "childName" ++ decimal n),
   Some (js "childDisplayName" ++ decimal n),
   Some (js "childDOB" ++ decimal n)).


(** The children of a reindexed group: one write after the other, each at
    the position its selector has in the group as it was. *)
Definition reindexed_kids (n : nat) (K : list Element) : list Element :=
  upd (find_index sel_button K)
      (set_display (if (n =? 1)%nat then js "none" else []))
    (upd (find_index sel_dob K) (set_id (js "childDOB" ++ decimal n))
      (upd (find_index sel_displayName K)
           (set_id (js "childDisplayName" ++ decimal n))
        (upd (find_index sel_name K) (set_id (js "childName" ++ decimal n))
          (upd (find_index sel_header K)
               (set_textContent (js "Child " ++ decimal n)) K)))).


(** The name of a child in the consent text, in the words of the
    specification: the legal name, followed by the display name in
    parentheses exactly when a non-empty display name is present. *)
Definition legal_name_of (c : ChildData) : jsstr :=
  or_empty (or_else_opt (legalname c) (name c)).

Definition spec_child_name (c : ChildData) : jsstr :=
  match displayname c with
  | Some (x :: d) => legal_name_of c ++ js " (" ++ (x :: d) ++ js ")"
  | _ => legal_name_of c
  end.

Fixpoint comma_joined (names : list jsstr) : jsstr :=
  match names with
  | [] => []
  | [x] => x
  | x :: rest => x ++ js ", " ++ comma_joined rest
  end.

Definition spec_consent_text (parent : jsstr) (cs : list ChildData) : jsstr :=
  js "I, " ++ parent ++ js ", as the parent/guardian of "
  ++ comma_joined (map spec_child_name cs) ++ consent_tail.

(** A child with a display name has a non-empty legal name. *)
Definition named_if_displayed (c : ChildData) : bool :=
  implb (truthy_opt (displayname c))
        (truthy_opt (or_else_opt (legalname c) (name c))).

Definition nameless_child : ChildData :=
  mkChildData (Some []) None (Some (js "Bo")) None.


Definition blank_page : Page :=
  mkPage true false false
    (createElement "input") (createElement "input")
    (createElement "div") (createElement "div") []
    (createElement "div") (set_textContent (js "Finish") (createElement "button"))
    (createElement "div") true [] false [] [] None.

Definition page_with_mobile (m : jsstr) : Page :=
  upd_mobileNumberInput (set_value m) blank_page.

(** A child group with the parts [addChildGroup] assembles (lines 158-241,
    without the hint). *)
Definition child_group_of (n : nat) (legal display dob : jsstr) : Group :=
  mkGroup (decimal n)
    [ set_textContent (js "Child " ++ decimal n)
        (set_className ["child-header"%string] (createElement "div"));
      set_textContent (js "Legal Name") (createElement "label");
      set_id (js "childName" ++ decimal n)
        (set_value legal (set_required true
           (set_type "text" (createElement "input"))));
      set_textContent (js "Display Name") (createElement "label");
      set_id (js "childDisplayName" ++ decimal n)
        (set_value display (set_type "text" (createElement "input")));
      set_textContent (js "Date of Birth") (createElement "label");
      set_id (js "childDOB" ++ decimal n)
        (set_value dob (set_readOnly true (set_required true
           (set_type "text" (createElement "input")))));
      set_display (if (n =? 1)%nat then js "none" else [])
        (set_textContent (js "Remove")
           (set_type "button" (createElement "button"))) ].

(** An environment in India: 5 November 2025, UTC+05:30. *)
Definition india_2025_11_05 : Env :=
  mkEnv 2025 10 5 330 (fun _ => None)
    (fun _ d => match d with Some s => s | None => [] end)
    (fun _ => js "error").

Definition lookup_failed (net : Fetched LookupJson) : bool :=
  match net with
  | NoResponse => true
  | Response false _ _ _ => true
  | Response true _ _ (Some (JValue true _ _)) => false
  | Response true _ _ _ => true
  end.

Definition new_customer_answer : Fetched LookupJson :=
  Response true 200 [] (Some (JValue false None (mkConsentData None None))).

Definition prefill_data : ConsentData :=
  mkConsentData (Some (js "A"))
    (Some [mkChildObj None (Some (js "B")) None None None None None
             (Some (js "2020-01-01"))]).

Definition wrapped_answer : Fetched LookupJson :=
  Response true 200 [] (Some (JValue true (Some prefill_data) (mkConsentData None None))).
Definition unwrapped_answer : Fetched LookupJson :=
  Response true 200 [] (Some (JValue true None prefill_data)).


Definition boundary_page : Page :=
  upd_childrenContainer
    (fun _ => [GroupNode (child_group_of 1 (js "B") [] (js "2023-11-05"))])
    blank_page.


(** Three children, as the form shows them. *)
Definition three_children : Page :=
  upd_childrenContainer
    (fun _ => [GroupNode (child_group_of 1 (js "Asha") (js "Ash") (js "2020-01-01"));
               GroupNode (child_group_of 2 (js "Bala") [] (js "2019-05-17"));
               GroupNode (child_group_of 3 (js "Chitra") [] (js "2021-03-09"))])
    blank_page.

Definition padded_mobile : jsstr := 32%N :: js "9876543210".

(** *** The vocabulary of the further properties *)

(** The parts of the page a handler may leave alone. *)
Definition steps (st : Page) : bool * bool * bool :=
  (step1_active st, step2_active st, step3_active st).

Definition visible (c : N) : bool := negb (is_space c).

(** The three inputs of a child record are there. *)
Definition has_inputs (g : Group) : bool :=
  forallb (fun sel => bool_decide (is_Some (querySelector sel g)))
    [sel_name; sel_displayName; sel_dob].

Definition input_value (sel : Selector) (g : Group) : jsstr :=
  match querySelector sel g with Some e => value e | None => [] end.

(** What a child record contributes to the submitted data. *)
Definition child_data_of (g : Group) : ChildData :=
  mkChildData (Some (trim (input_value sel_name g))) None
    (Some (trim (input_value sel_displayName g)))
    (Some (input_value sel_dob g)).


(** The error validation attaches to a child record, if any: the name is
    blank or the date is missing, the date does not parse, or the date is
    later than the day two years before today. *)
Definition group_error (env : Env) (g : Group) : option jsstr :=
  let name := input_value sel_name g in
  let dob := input_value sel_dob g in
  if negb (existsb visible name) || negb (truthy dob)
  then Some (js "Please enter legal name and date of birth.")
  else match Date_parse env dob with
       | None => Some (js "Please select a valid date.")
       | Some t =>
           if (twoYearsAgoDate env <? t)%Z
           then Some (js "Child must be at least 2 years old.")
           else None
       end.

Definition accepted (env : Env) (g : Group) : bool :=
  match group_error env g with Some _ => false | None => true end.

(** A child record without the error texts of an earlier validation, and
    with the error text of this one. *)
Definition strip_errors (g : Group) : Group :=
  mkGroup (dataset_index g) (List.filter keep (kids g)).

Definition mark (env : Env) (g : Group) : Group :=
  match group_error env g with
  | Some m => appendChild (error_span m) g
  | None => g
  end.

(** The name and date inputs of a child record are there. *)
Definition has_name_dob (g : Group) : bool :=
  bool_decide (is_Some (querySelector sel_name g))
  && bool_decide (is_Some (querySelector sel_dob g)).


(** The payload the form holds. *)
Definition payload_of (st : Page) : Payload :=
  mkPayload (trim (value (parentNameInput st)))
    (trim (value (mobileNumberInput st)))
    (map child_data_of (child_groups (childrenContainer st)))
    (signaturePad_dataURL st).

(** The answer of the backend for a customer it knows, with at least one
    child on record. *)
Definition known_with_children (net : Fetched LookupJson) : bool :=
  match net with
  | Response true _ _ (Some (JValue true data own)) =>
      match children (match data with Some d => d | None => own end) with
      | Some (_ :: _) => true
      | _ => false
      end
  | _ => false
  end.

(** The parent name of a lookup answer, when it carries one. *)
Definition answered_name (net : Fetched LookupJson) : option jsstr :=
  match net with
  | Response true _ _ (Some (JValue true data own)) =>
      parentName (match data with Some d => d | None => own end)
  | _ => None
  end.

Definition has_button (g : Group) : bool :=
  bool_decide (is_Some (querySelector sel_button g)).

(** A form ready to be submitted: three children, a parent, a mobile
    number and a signature. *)
Definition filled_form : Page :=
  set_signaturePad_isEmpty false
    (upd_mobileNumberInput (set_value (js "9876543210"))
       (upd_parentNameInput (set_value (js "Parent")) three_children)).

(** A signed form without mobile number, and a form with a child record
    that has lost its inputs. *)
Definition signed_blank : Page := set_signaturePad_isEmpty false blank_page.

Definition broken_form : Page :=
  upd_childrenContainer (fun _ => [GroupNode (mkGroup [] [])]) blank_page.

Definition named_blank : Page :=
  upd_parentNameInput (set_value (js "Parent")) blank_page.

End Spec.

(** ** Properties *)

Import JS JSDate Dom Consent Spec.

(** *** The computations *)

Section Run.

Lemma run_bind {A B} (m : M A) (f : A -> M B) st :
  run (m ≫= f) st
  = match run m st with
    | (Normal a, st') => run (f a) st'
    | (Throw e, st') => (Throw e, st')
    end.
Proof. reflexivity. Qed.

Lemma reset_prefill_run st :
  run reset_prefill st
  = (Normal tt,
     upd_childrenContainer (fun _ => [])
       (upd_parentNameInput (set_value [])
          (upd_parentNameInput (set_readOnly false)
             (set_isExistingCustomer false st)))).
Proof. reflexivity. Qed.

End Run.

(** *** The mobile number *)

Section Mobile.

Lemma remove_non_digits_digits s : forallb is_digit (remove_non_digits s) = true.
Proof.
  unfold remove_non_digits. induction s as [|c s IH]; simpl; [done|].
  destruct (is_digit c) eqn:E; simpl; [by rewrite E|done].
Qed.

Lemma forallb_take {A} (f : A -> bool) n (l : list A) :
  forallb f l = true -> forallb f (take n l) = true.
Proof.
  revert n. induction l as [|x l IH]; intros [|n]; simpl; try done.
  intros [-> H]%andb_prop. simpl. by apply IH.
Qed.

Lemma match_repeat_range lo hi n s :
  match_prefix (PRepeat n (PRange lo hi)) s
  = if (n <=? length s)%nat && forallb (in_range lo hi) (take n s)
    then Some (drop n s) else None.
Proof.
  revert s. induction n as [|n IH]; intros s.
  - by destruct s.
  - destruct s as [|c s].
    + reflexivity.
    + assert (Hstep : match_prefix (PRepeat (S n) (PRange lo hi)) (c :: s)
                      = if in_range lo hi c
                        then match_prefix (PRepeat n (PRange lo hi)) s
                        else None).
      { unfold in_range. simpl.
        destruct ((lo <=? c)%N && (c <=? hi)%N); reflexivity. }
      rewrite Hstep, IH. cbn [take forallb length].
      destruct (in_range lo hi c); cbn [andb]; [|by rewrite andb_false_r].
      reflexivity.
Qed.

Lemma mobileRegex_test s :
  RegExp_test mobileRegex s = ten_digits_from_6_to_9 s.
Proof.
  unfold RegExp_test, match_here.
  change (anchor_start mobileRegex) with true.
  change (anchor_end mobileRegex) with true. cbv iota.
  destruct s as [|c s]; [reflexivity|].
  change (match_prefix (body mobileRegex) (c :: s))
    with (match (if in_range 54 57 c then Some s else None) with
          | Some s' => match_prefix (PRepeat 9 (PRange 48 57)) s'
          | None => None
          end).
  unfold ten_digits_from_6_to_9. cbn [length forallb].
  fold (in_range 54 57 c).
  destruct (in_range 54 57 c) eqn:Hc.
  - rewrite match_repeat_range.
    assert (Hd : is_digit c = true).
    { unfold in_range in Hc. unfold is_digit.
      apply andb_prop in Hc as [H1 H2].
      apply N.leb_le in H1. apply N.leb_le in H2.
      apply andb_true_intro; split; apply N.leb_le; lia. }
    rewrite Hd. cbn [andb].
    change (S (length s) =? 10)%nat with (length s =? 9)%nat.
    destruct (9 <=? length s)%nat eqn:Hlen; cbn [andb].
    + apply Nat.leb_le in Hlen.
      destruct (length s =? 9)%nat eqn:Heq.
      * apply Nat.eqb_eq in Heq.
        rewrite take_ge by lia. rewrite drop_ge by lia.
        change (forallb (in_range 48 57) s) with (forallb is_digit s).
        destruct (forallb is_digit s); reflexivity.
      * apply Nat.eqb_neq in Heq.
        destruct (forallb (in_range 48 57) (take 9 s)); [|reflexivity].
        destruct (drop 9 s) eqn:Hdrop; [|reflexivity].
        apply (f_equal length) in Hdrop. rewrite length_drop in Hdrop.
        simpl in Hdrop. lia.
    + apply Nat.leb_gt in Hlen.
      destruct (length s =? 9)%nat eqn:Heq; [|reflexivity].
      apply Nat.eqb_eq in Heq. lia.
  - rewrite andb_false_r. reflexivity.
Qed.

(** C3 (as amended): the value of the field is trimmed first, and validation
    passes exactly when what is left consists of ten digits of which the
    first is 6 to 9; otherwise the error text is set and put on display. *)
Theorem validateMobile_after_trim (st : Page) :
  let mobile := trim (value (mobileNumberInput st)) in
  let r := run validateMobile st in
  fst r = Normal (ten_digits_from_6_to_9 mobile)
  /\ (if ten_digits_from_6_to_9 mobile
      then display (mobileNumberError (snd r)) = js "none"
      else textContent (mobileNumberError (snd r)) = invalid_mobile_message
           /\ display (mobileNumberError (snd r)) = js "block").
Proof.
  intros mobile r. unfold r, validateMobile.
  rewrite run_bind. cbn [run get]. fold mobile.
  rewrite run_bind. cbn [run modify].
  rewrite mobileRegex_test.
  destruct (ten_digits_from_6_to_9 mobile); cbn; auto.
Qed.

(** C3 (as stated) fails: a value with a space in front of a valid number
    does not match the pattern and passes validation. *)
Lemma validateMobile_accepts_padded :
  RegExp_test mobileRegex padded_mobile = false
  /\ value (mobileNumberInput (page_with_mobile padded_mobile)) = padded_mobile
  /\ fst (run validateMobile (page_with_mobile padded_mobile)) = Normal true.
Proof. vm_compute. repeat split. Qed.

(** C10: the listener of the input event leaves at most ten characters, all
    of them digits, in the mobile number field, and resets the prefilled
    state: no existing customer, an empty and editable parent name, no child
    rows. *)
Theorem mobile_input_sanitised (st : Page) :
  let r := run mobileNumberInput_input st in
  let v := value (mobileNumberInput (snd r)) in
  fst r = Normal tt
  /\ v = slice0 10 (remove_non_digits (value (mobileNumberInput st)))
  /\ forallb is_digit v = true
  /\ length v <= 10
  /\ isExistingCustomer (snd r) = false
  /\ value (parentNameInput (snd r)) = []
  /\ readOnly (parentNameInput (snd r)) = false
  /\ childrenContainer (snd r) = [].
Proof.
  cbn. repeat split.
  - apply forallb_take, remove_non_digits_digits.
  - unfold slice0. rewrite length_take. lia.
Qed.
End Mobile.

(** *** Reindexing the child records *)

Section Reindex.

Lemma starts_with_app_inv a x b y b' s :
  starts_with (a ++ x :: b) s = true -> starts_with (a ++ y :: b') s = true -> x = y.
Proof.
  revert s. induction a as [|c a IH]; intros [|d s]; simpl; try done.
  - intros [H1 _]%andb_prop [H2 _]%andb_prop.
    apply N.eqb_eq in H1, H2. congruence.
  - intros [_ H1]%andb_prop [_ H2]%andb_prop. eauto.
Qed.

Lemma prefix_name_display s :
  starts_with (js "childName") s = true ->
  starts_with (js "childDisplayName") s = false.
Proof.
  intros H. destruct (starts_with (js "childDisplayName") s) eqn:E; [|done].
  exfalso.
  pose proof (starts_with_app_inv (js "child") 78%N (js "ame") 68%N
                (js "isplayName") s H E). done.
Qed.

Lemma prefix_name_dob s :
  starts_with (js "childName") s = true ->
  starts_with (js "childDOB") s = false.
Proof.
  intros H. destruct (starts_with (js "childDOB") s) eqn:E; [|done].
  exfalso.
  pose proof (starts_with_app_inv (js "child") 78%N (js "ame") 68%N
                (js "OB") s H E). done.
Qed.

Lemma prefix_display_dob s :
  starts_with (js "childDisplayName") s = true ->
  starts_with (js "childDOB") s = false.
Proof.
  intros H. destruct (starts_with (js "childDOB") s) eqn:E; [|done].
  exfalso.
  pose proof (starts_with_app_inv (js "childD") 105%N (js "splayName") 79%N
                (js "B") s H E). done.
Qed.

Lemma tags_set_textContent t e : tags (set_textContent t e) = tags e.
Proof. reflexivity. Qed.

Lemma tags_set_display d e : tags (set_display d e) = tags e.
Proof. reflexivity. Qed.

Lemma starts_with_app p x : starts_with p (p ++ x) = true.
Proof.
  induction p as [|c p IH]; simpl; [done|].
  unfold code_eqb. by rewrite N.eqb_refl.
Qed.

Lemma tags_set_id_name x e :
  matches sel_name e = true -> tags (set_id (js "childName" ++ x) e) = tags e.
Proof.
  unfold tags, matches, sel_name, sel_displayName, sel_dob, sel_header, sel_button.
  cbn [tagName e_id set_id e_type has_class classList].
  intros [Ht Hp]%andb_prop. rewrite Ht.
  rewrite starts_with_app, Hp.
  rewrite (prefix_name_display _ Hp), (prefix_name_dob _ Hp).
  rewrite (prefix_name_display _ (starts_with_app _ x)).
  rewrite (prefix_name_dob _ (starts_with_app _ x)). reflexivity.
Qed.


Lemma prefix_display_name s :
  starts_with (js "childDisplayName") s = true ->
  starts_with (js "childName") s = false.
Proof.
  intros H. destruct (starts_with (js "childName") s) eqn:E; [|done].
  by rewrite (prefix_name_display _ E) in H.
Qed.

Lemma prefix_dob_name s :
  starts_with (js "childDOB") s = true ->
  starts_with (js "childName") s = false.
Proof.
  intros H. destruct (starts_with (js "childName") s) eqn:E; [|done].
  by rewrite (prefix_name_dob _ E) in H.
Qed.

Lemma prefix_dob_display s :
  starts_with (js "childDOB") s = true ->
  starts_with (js "childDisplayName") s = false.
Proof.
  intros H. destruct (starts_with (js "childDisplayName") s) eqn:E; [|done].
  by rewrite (prefix_display_dob _ E) in H.
Qed.

Lemma tags_set_id_displayName x e :
  matches sel_displayName e = true ->
  tags (set_id (js "childDisplayName" ++ x) e) = tags e.
Proof.
  unfold tags, matches, sel_name, sel_displayName, sel_dob, sel_header, sel_button.
  cbn [tagName e_id set_id e_type has_class classList].
  intros [Ht Hp]%andb_prop. rewrite Ht.
  rewrite starts_with_app, Hp.
  rewrite (prefix_display_name _ Hp), (prefix_display_dob _ Hp).
  rewrite (prefix_display_name _ (starts_with_app _ x)).
  rewrite (prefix_display_dob _ (starts_with_app _ x)). reflexivity.
Qed.

Lemma tags_set_id_dob x e :
  matches sel_dob e = true -> tags (set_id (js "childDOB" ++ x) e) = tags e.
Proof.
  unfold tags, matches, sel_name, sel_displayName, sel_dob, sel_header, sel_button.
  cbn [tagName e_id set_id e_type has_class classList].
  intros [Ht Hp]%andb_prop. rewrite Ht.
  rewrite starts_with_app, Hp.
  rewrite (prefix_dob_name _ Hp), (prefix_dob_display _ Hp).
  rewrite (prefix_dob_name _ (starts_with_app _ x)).
  rewrite (prefix_dob_display _ (starts_with_app _ x)). reflexivity.
Qed.

(** [find_index] *)

Lemma find_index_Some sel l i :
  find_index sel l = Some i ->
  exists e, l !! i = Some e /\ matches sel e = true.
Proof.
  revert i. induction l as [|x l IH]; intros i; simpl; [done|].
  destruct (matches sel x) eqn:Hx.
  - intros [= <-]. eauto.
  - destruct (find_index sel l) as [k|]; simpl; [|done].
    intros [= <-]. destruct (IH k eq_refl) as (e & ? & ?). eauto.
Qed.

Lemma find_index_ext sel l l' :
  map (matches sel) l = map (matches sel) l' ->
  find_index sel l = find_index sel l'.
Proof.
  revert l'. induction l as [|x l IH]; intros [|y l']; simpl; try done.
  intros [= Hxy Hl]. rewrite Hxy. by rewrite (IH _ Hl).
Qed.

Lemma matches_of_tags sel e e' :
  script_selector sel -> tags e = tags e' -> matches sel e = matches sel e'.
Proof.
  unfold tags. intros Hsel H. injection H as H1 H2 H3 H4 H5.
  destruct Hsel as [-> | [-> | [-> | [-> | ->] ] ] ]; assumption.
Qed.

Lemma find_index_tags sel l l' :
  script_selector sel -> map tags l = map tags l' ->
  find_index sel l = find_index sel l'.
Proof.
  intros Hsel H. apply find_index_ext, list_eq. intros j.
  apply (f_equal (fun m => m !! j)) in H.
  rewrite !list_lookup_fmap in H. rewrite !list_lookup_fmap.
  destruct (l !! j) as [e|], (l' !! j) as [e'|]; simpl in *; try done.
  f_equal. apply matches_of_tags; [done|congruence].
Qed.

Lemma tags_upd sel f l l0 :
  script_selector sel -> map tags l = map tags l0 ->
  (forall e, matches sel e = true -> tags (f e) = tags e) ->
  map tags (upd (find_index sel l0) f l) = map tags l0.
Proof.
  intros Hsel Hl Hf. rewrite <- (find_index_tags sel l l0 Hsel Hl).
  rewrite <- Hl. clear Hl l0.
  unfold upd. destruct (find_index sel l) as [i|] eqn:Hi; [|done].
  destruct (find_index_Some _ _ _ Hi) as (e & He & Hm).
  apply list_eq. intros j. rewrite !list_lookup_fmap.
  destruct (decide (i = j)) as [->|Hne].
  - rewrite list_lookup_alter_eq, He. simpl. by rewrite Hf.
  - by rewrite list_lookup_alter_ne.
Qed.

Lemma update_at_upd o f d K :
  update_at o f (mkGroup d K) = mkGroup d (upd o f K).
Proof. by destruct o. Qed.

Local Ltac script_sel := unfold script_selector; tauto.

Lemma reindex_group_kids i g :
  reindex_group i g
  = mkGroup (decimal (i + 1)) (reindexed_kids (i + 1) (kids g))
  /\ map tags (reindexed_kids (i + 1) (kids g)) = map tags (kids g).
Proof.
  unfold reindex_group, reindexed_kids.
  set (n := (i + 1)%nat). set (K := kids g). cbn [kids].
  rewrite update_at_upd. cbn [kids].
  set (K1 := upd (find_index sel_header K) _ K).
  assert (H1 : map tags K1 = map tags K).
  { apply tags_upd; [script_sel|done|]. intros e _. apply tags_set_textContent. }
  rewrite (find_index_tags sel_name K1 K) by (script_sel || done).
  rewrite (find_index_tags sel_displayName K1 K) by (script_sel || done).
  rewrite (find_index_tags sel_dob K1 K) by (script_sel || done).
  rewrite !update_at_upd. cbn [kids].
  set (K2 := upd (find_index sel_name K) _ K1).
  assert (H2 : map tags K2 = map tags K).
  { apply tags_upd; [script_sel|done|]. intros e. apply tags_set_id_name. }
  set (K3 := upd (find_index sel_displayName K) _ K2).
  assert (H3 : map tags K3 = map tags K).
  { apply tags_upd; [script_sel|done|]. intros e. apply tags_set_id_displayName. }
  set (K4 := upd (find_index sel_dob K) _ K3).
  assert (H4 : map tags K4 = map tags K).
  { apply tags_upd; [script_sel|done|]. intros e. apply tags_set_id_dob. }
  rewrite (find_index_tags sel_button K4 K) by (script_sel || done).
  split; [reflexivity|].
  apply tags_upd; [script_sel|done|]. intros e _. apply tags_set_display.
Qed.

Lemma upd_lookup o f l j : upd o f l !! j = when (at_pos o j) f <$> l !! j.
Proof.
  destruct o as [i|]; simpl.
  - destruct (i =? j)%nat eqn:E; simpl.
    + apply Nat.eqb_eq in E as ->. apply list_lookup_alter_eq.
    + apply Nat.eqb_neq in E. rewrite list_lookup_alter_ne by done.
      by destruct (l !! j).
  - by destruct (l !! j).
Qed.

Lemma reindexed_kids_lookup n K j :
  reindexed_kids n K !! j = relabel n K j <$> K !! j.
Proof.
  unfold reindexed_kids. rewrite !upd_lookup.
  by destruct (K !! j).
Qed.

Lemma relabel_tags n K K' j :
  map tags K' = map tags K -> relabel n K' j = relabel n K j.
Proof.
  intros H. unfold relabel.
  by rewrite !(find_index_tags _ K' K) by (script_sel || done).
Qed.

Lemma relabel_twice n K j e : relabel n K j (relabel n K j e) = relabel n K j e.
Proof.
  unfold relabel.
  destruct (at_pos (find_index sel_button K) j),
    (at_pos (find_index sel_dob K) j),
    (at_pos (find_index sel_displayName K) j),
    (at_pos (find_index sel_name K) j),
    (at_pos (find_index sel_header K) j); reflexivity.
Qed.

Lemma reindexed_kids_twice n K :
  reindexed_kids n (reindexed_kids n K) = reindexed_kids n K.
Proof.
  apply list_eq. intros j.
  rewrite (reindexed_kids_lookup n (reindexed_kids n K)).
  assert (Ht : map tags (reindexed_kids n K) = map tags K).
  { destruct n as [|i].
    - unfold reindexed_kids.
      repeat (apply tags_upd; [script_sel| |]);
        try done; intros e He;
          auto using tags_set_textContent, tags_set_display,
            tags_set_id_name, tags_set_id_displayName, tags_set_id_dob.
    - replace (S i) with (i + 1)%nat by lia.
      apply (reindex_group_kids i (mkGroup [] K)). }
  rewrite (relabel_tags _ _ _ _ Ht), reindexed_kids_lookup.
  destruct (K !! j) as [e|]; simpl; [|done].
  by rewrite relabel_twice.
Qed.

Lemma reindex_group_twice i g :
  reindex_group i (reindex_group i g) = reindex_group i g.
Proof.
  destruct (reindex_group_kids i g) as [E _]. rewrite E at 1.
  destruct (reindex_group_kids i (mkGroup (decimal (i + 1))
              (reindexed_kids (i + 1) (kids g)))) as [E' _].
  rewrite E', E. cbn [kids]. by rewrite reindexed_kids_twice.
Qed.

Lemma map_groups_from_twice f n nodes :
  (forall i g, f i (f i g) = f i g) ->
  map_groups_from n f (map_groups_from n f nodes) = map_groups_from n f nodes.
Proof.
  intros Hf. revert n.
  induction nodes as [|[g|e] nodes IH]; intros n; simpl; [done| |];
    by rewrite ?Hf, IH.
Qed.

Lemma child_groups_map_groups_from f n nodes :
  child_groups (map_groups_from n f nodes)
  = imap (fun i => f (n + i)%nat) (child_groups nodes).
Proof.
  revert n. induction nodes as [|[g|e] nodes IH]; intros n; simpl; [done| |].
  - rewrite Nat.add_0_r. f_equal. rewrite IH.
    apply imap_ext. intros i x _. simpl. f_equal. lia.
  - apply IH.
Qed.

Lemma child_groups_remove_group k nodes :
  child_groups (remove_group k nodes) = delete k (child_groups nodes).
Proof.
  revert k. induction nodes as [|[g|e] nodes IH]; intros k; simpl; [done| |].
  - destruct k as [|k]; simpl; [done|]. by rewrite IH.
  - apply IH.
Qed.

Lemma querySelector_reindex sel i g :
  script_selector sel ->
  querySelector sel (reindex_group i g)
  = match find_index sel (kids g) with
    | Some j => relabel (i + 1) (kids g) j <$> kids g !! j
    | None => None
    end.
Proof.
  intros Hsel. destruct (reindex_group_kids i g) as [E Ht]. rewrite E.
  unfold querySelector. cbn [kids].
  rewrite (find_index_tags sel _ _ Hsel Ht).
  destruct (find_index sel (kids g)); [|done].
  apply reindexed_kids_lookup.
Qed.

Lemma at_pos_refl sel K j : find_index sel K = Some j -> at_pos (find_index sel K) j = true.
Proof. intros ->. simpl. apply Nat.eqb_refl. Qed.

Lemma at_pos_other sel sel' K j :
  (forall e, matches sel e = true -> matches sel' e = false) ->
  find_index sel K = Some j -> at_pos (find_index sel' K) j = false.
Proof.
  intros Hex Hj. destruct (find_index sel' K) as [j'|] eqn:Hj'; [|done].
  simpl. destruct (j' =? j)%nat eqn:E; [|done].
  apply Nat.eqb_eq in E as ->.
  destruct (find_index_Some _ _ _ Hj) as (e & He & Hm).
  destruct (find_index_Some _ _ _ Hj') as (e' & He' & Hm').
  rewrite He in He'. injection He' as <-.
  by rewrite (Hex _ Hm) in Hm'.
Qed.

Lemma matches_name_display e :
  matches sel_name e = true -> matches sel_displayName e = false.
Proof.
  unfold matches, sel_name, sel_displayName, sel_dob.
  intros [-> H]%andb_prop. by rewrite (prefix_name_display _ H).
Qed.
Lemma matches_name_dob e :
  matches sel_name e = true -> matches sel_dob e = false.
Proof.
  unfold matches, sel_name, sel_displayName, sel_dob.
  intros [-> H]%andb_prop. by rewrite (prefix_name_dob _ H).
Qed.
Lemma matches_display_name e :
  matches sel_displayName e = true -> matches sel_name e = false.
Proof.
  unfold matches, sel_name, sel_displayName, sel_dob.
  intros [-> H]%andb_prop. by rewrite (prefix_display_name _ H).
Qed.
Lemma matches_display_dob e :
  matches sel_displayName e = true -> matches sel_dob e = false.
Proof.
  unfold matches, sel_name, sel_displayName, sel_dob.
  intros [-> H]%andb_prop. by rewrite (prefix_display_dob _ H).
Qed.
Lemma matches_dob_name e :
  matches sel_dob e = true -> matches sel_name e = false.
Proof.
  unfold matches, sel_name, sel_displayName, sel_dob.
  intros [-> H]%andb_prop. by rewrite (prefix_dob_name _ H).
Qed.
Lemma matches_dob_display e :
  matches sel_dob e = true -> matches sel_displayName e = false.
Proof.
  unfold matches, sel_name, sel_displayName, sel_dob.
  intros [-> H]%andb_prop. by rewrite (prefix_dob_display _ H).
Qed.

Lemma relabel_value n K j e : value (relabel n K j e) = value e.
Proof.
  unfold relabel.
  destruct (at_pos (find_index sel_button K) j),
    (at_pos (find_index sel_dob K) j),
    (at_pos (find_index sel_displayName K) j),
    (at_pos (find_index sel_name K) j),
    (at_pos (find_index sel_header K) j); reflexivity.
Qed.

Lemma relabel_header n K j e :
  find_index sel_header K = Some j ->
  textContent (relabel n K j e) = js "Child " ++ decimal n.
Proof.
  intros H. unfold relabel. rewrite (at_pos_refl _ _ _ H).
  destruct (at_pos (find_index sel_button K) j),
    (at_pos (find_index sel_dob K) j),
    (at_pos (find_index sel_displayName K) j),
    (at_pos (find_index sel_name K) j); reflexivity.
Qed.

Lemma relabel_name n K j e :
  find_index sel_name K = Some j ->
  e_id (relabel n K j e) = js "childName" ++ decimal n.
Proof.
  intros H. unfold relabel. rewrite (at_pos_refl _ _ _ H).
  rewrite (at_pos_other _ sel_displayName _ _ matches_name_display H).
  rewrite (at_pos_other _ sel_dob _ _ matches_name_dob H).
  destruct (at_pos (find_index sel_button K) j),
    (at_pos (find_index sel_header K) j); reflexivity.
Qed.

Lemma relabel_displayName n K j e :
  find_index sel_displayName K = Some j ->
  e_id (relabel n K j e) = js "childDisplayName" ++ decimal n.
Proof.
  intros H. unfold relabel. rewrite (at_pos_refl _ _ _ H).
  rewrite (at_pos_other _ sel_name _ _ matches_display_name H).
  rewrite (at_pos_other _ sel_dob _ _ matches_display_dob H).
  destruct (at_pos (find_index sel_button K) j),
    (at_pos (find_index sel_header K) j); reflexivity.
Qed.

Lemma relabel_dob n K j e :
  find_index sel_dob K = Some j ->
  e_id (relabel n K j e) = js "childDOB" ++ decimal n.
Proof.
  intros H. unfold relabel. rewrite (at_pos_refl _ _ _ H).
  rewrite (at_pos_other _ sel_name _ _ matches_dob_name H).
  rewrite (at_pos_other _ sel_displayName _ _ matches_dob_display H).
  destruct (at_pos (find_index sel_button K) j),
    (at_pos (find_index sel_header K) j); reflexivity.
Qed.

Lemma relabel_button n K j e :
  find_index sel_button K = Some j ->
  display (relabel n K j e) = if (n =? 1)%nat then js "none" else [].
Proof.
  intros H. unfold relabel. by rewrite (at_pos_refl _ _ _ H).
Qed.

Lemma fmap_querySelector_reindex {A} (h : Element -> A) (c : A) sel i g :
  script_selector sel ->
  (forall j e, find_index sel (kids g) = Some j ->
               h (relabel (i + 1) (kids g) j e) = c) ->
  h <$> querySelector sel (reindex_group i g)
  = (fun _ => c) <$> querySelector sel g.
Proof.
  intros Hsel Hh. rewrite querySelector_reindex by done.
  unfold querySelector.
  destruct (find_index sel (kids g)) as [j|] eqn:E; [|done].
  destruct (kids g !! j); simpl; [|done]. by rewrite Hh.
Qed.

Lemma labels_reindex_group i g :
  labels (reindex_group i g) = labels_for (i + 1) g.
Proof.
  unfold labels, labels_for.
  rewrite (fmap_querySelector_reindex textContent (js "Child " ++ decimal (i + 1)))
    by (script_sel || auto using relabel_header).
  rewrite (fmap_querySelector_reindex e_id (js "childName" ++ decimal (i + 1)) sel_name)
    by (script_sel || auto using relabel_name).
  rewrite (fmap_querySelector_reindex e_id (js "childDisplayName" ++ decimal (i + 1))
             sel_displayName)
    by (script_sel || auto using relabel_displayName).
  rewrite (fmap_querySelector_reindex e_id (js "childDOB" ++ decimal (i + 1)) sel_dob)
    by (script_sel || auto using relabel_dob).
  by destruct (reindex_group_kids i g) as [-> _].
Qed.

Lemma value_querySelector_reindex sel i g :
  script_selector sel ->
  value <$> querySelector sel (reindex_group i g) = value <$> querySelector sel g.
Proof.
  intros Hsel. rewrite querySelector_reindex by done.
  unfold querySelector.
  destruct (find_index sel (kids g)) as [j|]; [|done].
  destruct (kids g !! j); simpl; [|done]. by rewrite relabel_value.
Qed.

Lemma fields_reindex_group i g : fields (reindex_group i g) = fields g.
Proof.
  unfold fields. by rewrite !value_querySelector_reindex by script_sel.
Qed.

Lemma removal_offered_reindex_group i g :
  removal_offered (reindex_group i g)
  = bool_decide (is_Some (querySelector sel_button g)) && negb (i =? 0)%nat.
Proof.
  unfold removal_offered. rewrite querySelector_reindex by script_sel.
  unfold querySelector.
  destruct (find_index sel_button (kids g)) as [j|] eqn:E; [|done].
  destruct (kids g !! j) as [e|]; simpl; [|done].
  rewrite relabel_button by done.
  replace (i + 1)%nat with (S i) by lia.
  destruct i; reflexivity.
Qed.

Lemma labels_for_complete n g : complete g = true -> labels_for n g = full_labels n.
Proof.
  unfold complete, labels_for, full_labels. cbn [forallb].
  rewrite !andb_true_r.
  intros [H1 [H2 [H3 [H4 H5]%andb_prop]%andb_prop]%andb_prop]%andb_prop.
  apply bool_decide_eq_true in H1 as [? ->], H2 as [? ->], H3 as [? ->],
    H4 as [? ->].
  reflexivity.
Qed.

Lemma complete_button g :
  complete g = true -> bool_decide (is_Some (querySelector sel_button g)) = true.
Proof.
  unfold complete. cbn [forallb]. rewrite !andb_true_r.
  by intros [_ [_ [_ [_ H]%andb_prop]%andb_prop]%andb_prop]%andb_prop.
Qed.

(** C9: reindexing is idempotent and numbers by position: run on its own
    result, [reindexChildren] leaves the page as it is, and after one run
    the record at position [i] (from 0) carries the number [i + 1] in its
    index, in its header and in the identifiers of its inputs, whatever the
    records carried before. *)
Theorem reindexChildren_idempotent_in_order (st : Page) :
  let st1 := snd (run reindexChildren st) in
  run reindexChildren st1 = (Normal tt, st1)
  /\ map labels (child_groups (childrenContainer st1))
     = imap (fun i g => labels_for (i + 1) g)
         (child_groups (childrenContainer st)).
Proof.
  cbn. split.
  - f_equal. unfold upd_childrenContainer; cbn. f_equal.
    apply map_groups_from_twice, reindex_group_twice.
  - unfold map_groups. rewrite child_groups_map_groups_from.
    change (map labels) with (fmap (M:=list) labels).
    rewrite fmap_imap. apply imap_ext. intros i g _. simpl.
    apply labels_reindex_group.
Qed.

(** C2: in a list of complete child records, a click on the Remove button
    of a record other than the first ([k >= 1], counting from 0) leaves one
    record less; the records left carry the labels and identifiers
    1..n-1, their field values are those of the original records in the
    original order with the removed one left out, and the Remove button is
    on display on all of them but the first. *)
Theorem removeBtn_click_relabels (st : Page) (k : nat) :
  let gs := child_groups (childrenContainer st) in
  let r := run (removeBtn_click k) st in
  let gs' := child_groups (childrenContainer (snd r)) in
  forallb complete gs = true -> 1 <= k < length gs ->
  fst r = Normal tt
  /\ length gs' = length gs - 1
  /\ map labels gs' = map full_labels (seq 1 (length gs - 1))
  /\ map fields gs' = delete k (map fields gs)
  /\ map removal_offered gs'
     = map (fun n => negb (n =? 1)%nat) (seq 1 (length gs - 1)).
Proof.
  intros gs r gs' Hc Hk.
  assert (Egs' : gs' = imap reindex_group (delete k gs)).
  { unfold gs', r. cbn. unfold map_groups.
    rewrite child_groups_map_groups_from, child_groups_remove_group.
    reflexivity. }
  assert (Hlen : length (delete k gs) = length gs - 1).
  { apply length_delete, lookup_lt_is_Some. lia. }
  assert (Hc' : Forall (fun g => complete g = true) (delete k gs)).
  { apply Forall_delete. apply Is_true_true, forallb_True in Hc.
    eapply Forall_impl; [exact Hc|]. intros g Hg. by apply Is_true_true. }
  split; [reflexivity|]. rewrite Egs'.
  split; [by rewrite length_imap|].
  rewrite <- Hlen.
  change (@map) with (@fmap list _). rewrite !fmap_imap.
  repeat split.
  - rewrite <- (imap_seq (delete k gs) full_labels 1).
    apply imap_ext. intros i g Hg. simpl.
    rewrite labels_reindex_group, Nat.add_comm.
    apply labels_for_complete.
    by apply (proj1 (Forall_lookup _ _) Hc' i g).
  - rewrite <- list_fmap_delete.
    rewrite <- (imap_const fields (delete k gs)).
    apply imap_ext. intros i g _. apply fields_reindex_group.
  - rewrite <- (imap_seq (delete k gs) (fun n => negb (n =? 1)%nat) 1).
    apply imap_ext. intros i g Hg. simpl.
    rewrite removal_offered_reindex_group, complete_button.
    + by destruct i.
    + by apply (proj1 (Forall_lookup _ _) Hc' i g).
Qed.

Lemma removeBtn_click_relabels_witness :
  forallb complete (child_groups (childrenContainer three_children)) = true
  /\ 1 <= 1 < length (child_groups (childrenContainer three_children))
  /\ map fields
       (child_groups
          (childrenContainer (snd (run (removeBtn_click 1) three_children))))
     = [(Some (js "Asha"), Some (js "Ash"), Some (js "2020-01-01"));
        (Some (js "Chitra"), Some [], Some (js "2021-03-09"))].
Proof.
  assert (Hc : forallb complete (child_groups (childrenContainer three_children))
               = true) by reflexivity.
  assert (Hk : 1 <= 1 < length (child_groups (childrenContainer three_children)))
    by (vm_compute; lia).
  split; [exact Hc|]. split; [exact Hk|].
  exact (proj1 (proj2 (proj2 (proj2
           (removeBtn_click_relabels three_children 1 Hc Hk))))).
Defined.

End Reindex.

(** *** The consent text *)

Section Compose.

Lemma code_name_spec c :
  named_if_displayed c = true ->
  join_item
    (let legalName := or_else_opt (legalname c) (name c) in
     let displayName := displayname c in
     if truthy_opt displayName
     then Some (template_hole legalName ++ js " ("
                ++ template_hole displayName ++ js ")")
     else legalName)
  = spec_child_name c.
Proof.
  unfold named_if_displayed, spec_child_name, legal_name_of. cbv zeta.
  destruct (displayname c) as [[|x d]|]; cbn [truthy_opt truthy implb]; try done.
  destruct (or_else_opt (legalname c) (name c)) as [[|y l]|]; cbn; done.
Qed.

Lemma join_map_spec {A} (f : A -> option jsstr) (g : A -> jsstr) l :
  Forall (fun x => join_item (f x) = g x) l ->
  join (js ", ") (map f l) = comma_joined (map g l).
Proof.
  induction 1 as [|x l Hx Hl IH]; [done|].
  destruct l as [|y l]; [exact Hx|].
  change (join_item (f x) ++ js ", " ++ join (js ", ") (map f (y :: l))
          = g x ++ js ", " ++ comma_joined (map g (y :: l))).
  by rewrite Hx, IH.
Qed.

(** C4 (as amended): when every child that has a display name has a
    non-empty legal name, the consent text is the fixed statement with the
    parent name and the names of the children joined by a comma and a
    space, each name being the legal name, followed by the display name in
    parentheses exactly when a non-empty display name is present.  The text
    is a function of the two arguments alone: [composeConsentText] reads no
    part of the page. *)
Theorem composeConsentText_names parent cs :
  forallb named_if_displayed cs = true ->
  composeConsentText parent cs = spec_consent_text parent cs.
Proof.
  intros H. unfold composeConsentText, spec_consent_text. cbv zeta.
  do 3 f_equal. f_equal.
  apply join_map_spec.
  apply Is_true_true, forallb_True in H.
  eapply Forall_impl; [exact H|]. intros c Hc.
  apply (code_name_spec c). by apply Is_true_true.
Qed.

Lemma composeConsentText_names_witness :
  forallb named_if_displayed
    [mkChildData (Some (js "Asha")) None (Some (js "Ash")) None;
     mkChildData (Some (js "Bala")) None (Some []) None] = true
  /\ composeConsentText (js "P")
       [mkChildData (Some (js "Asha")) None (Some (js "Ash")) None;
        mkChildData (Some (js "Bala")) None (Some []) None]
     = js "I, P, as the parent/guardian of Asha (Ash), Bala" ++ consent_tail.
Proof.
  split; [reflexivity|].
  exact (composeConsentText_names (js "P")
           [mkChildData (Some (js "Asha")) None (Some (js "Ash")) None;
            mkChildData (Some (js "Bala")) None (Some []) None] eq_refl).
Defined.

(** C4 (as stated) fails: for a child with a display name and an empty legal
    name the text reads "undefined (Bo)", not " (Bo)". *)
Lemma composeConsentText_counterexample :
  composeConsentText (js "P") [nameless_child]
  = js "I, P, as the parent/guardian of undefined (Bo)" ++ consent_tail
  /\ spec_consent_text (js "P") [nameless_child]
     = js "I, P, as the parent/guardian of  (Bo)" ++ consent_tail
  /\ composeConsentText (js "P") [nameless_child]
     <> spec_consent_text (js "P") [nameless_child].
Proof. repeat split. intros H. vm_compute in H. discriminate H. Qed.

End Compose.

(** *** The handlers *)

Section Handlers.

Variable env : Env.

(** C6: with an empty signature pad, a click on Finish only shows the
    message that asks for a signature: no request is sent and the page does
    not navigate. *)
Theorem finish_blocked_without_signature (net : Fetched SubmitJson) (st : Page) :
  signaturePad_isEmpty st = true ->
  let r := run (finishBtn_click env net) st in
  fst r = Normal tt
  /\ snd r = push_alert (js "Please provide your signature before finishing.") st
  /\ requests (snd r) = requests st
  /\ location_href (snd r) = location_href st.
Proof.
  intros H. cbn. rewrite H. cbn. done.
Qed.


Lemma fetch_failed (net : Fetched LookupJson) mobile st0 :
  lookup_failed net = true -> isExistingCustomer st0 = false ->
  run (fetchExistingConsent env net mobile) st0
  = (Normal tt, push_request (GetConsent mobile) st0).
Proof.
  intros H H0.
  destruct st0; cbn [isExistingCustomer] in H0; subst.
  destruct net as [|[|] status text [[|[|] data own]|]]; try discriminate H;
    reflexivity.
Qed.

(** C7: a lookup that fails (no response, a response that is not OK, a body
    that is not JSON, or a body whose [exists] is falsy) is swallowed:
    [fetchExistingConsent], run on the page as the handler has reset it,
    completes without an exception and without a message, the page is the
    reset page with the request recorded, so no existing customer, no parent
    name and no child row; and the whole click handler does on such an
    answer what it does on the answer for a new customer. *)
Theorem failed_lookup_is_swallowed (net : Fetched LookupJson) (st : Page) :
  lookup_failed net = true ->
  let mobile := trim (value (mobileNumberInput st)) in
  let st0 := snd (run reset_prefill st) in
  let r := run (fetchExistingConsent env net mobile) st0 in
  fst r = Normal tt
  /\ snd r = push_request (GetConsent mobile) st0
  /\ isExistingCustomer (snd r) = false
  /\ value (parentNameInput (snd r)) = []
  /\ childrenContainer (snd r) = []
  /\ alerts (snd r) = alerts st
  /\ run (nextToDetailsBtn_click env net) st
     = run (nextToDetailsBtn_click env new_customer_answer) st.
Proof.
  intros H mobile st0 r.
  assert (Hr : r = (Normal tt, push_request (GetConsent mobile) st0)).
  { apply fetch_failed; [exact H|reflexivity]. }
  rewrite Hr. repeat split.
  unfold nextToDetailsBtn_click. rewrite !(run_bind validateMobile).
  destruct (run validateMobile st) as [[[|]|e] st1]; cbn [negb]; try reflexivity.
  rewrite !(run_bind reset_prefill), reset_prefill_run.
  rewrite !(run_bind get). cbn [run get].
  rewrite !(run_bind (fetchExistingConsent _ _ _)).
  rewrite !fetch_failed by (exact H || reflexivity).
  reflexivity.
Qed.

(** C5 (the code departs from it): on the lookup response of the claim,
    wrapped or not, the handler fills in the parent name and then throws at
    the first child row: no row is added, the customer is not marked as
    existing, the parent name stays editable and step 2 is not shown. *)
Theorem prefill_aborts :
  let st := page_with_mobile (js "9876543210") in
  let r1 := run (nextToDetailsBtn_click env wrapped_answer) st in
  let r2 := run (nextToDetailsBtn_click env unwrapped_answer) st in
  r1 = r2
  /\ fst r1 = Throw (ReferenceError "dobHint")
  /\ value (parentNameInput (snd r1)) = js "A"
  /\ childrenContainer (snd r1) = []
  /\ isExistingCustomer (snd r1) = false
  /\ readOnly (parentNameInput (snd r1)) = false
  /\ step2_active (snd r1) = false.
Proof. vm_compute. repeat split. Qed.


(** C8 (the code departs from it): on a container without child record,
    [validateChildren] throws instead of returning false, and no record has
    been inserted. *)
Theorem validateChildren_no_record_throws (st : Page) (es : list Element) :
  let st0 := upd_childrenContainer (fun _ => map ElemNode es) st in
  let r := run (validateChildren env) st0 in
  fst r = Throw (ReferenceError "dobHint")
  /\ child_groups (childrenContainer (snd r)) = [].
Proof.
  assert (H : forall l, child_groups (map ElemNode l) = []).
  { induction l; simpl; done. }
  assert (H' : forall l, child_groups (remove_child_errors (map ElemNode l)) = []).
  { induction l as [|e l IH]; simpl; [done|]. by destruct (keep e). }
  cbn. rewrite H. cbn. rewrite H'. cbn. done.
Qed.



End Handlers.

Lemma finish_blocked_without_signature_witness :
  signaturePad_isEmpty blank_page = true
  /\ requests
       (snd (run (finishBtn_click india_2025_11_05 NoResponse) blank_page))
     = [].
Proof.
  split; [reflexivity|].
  exact (proj1 (proj2 (proj2
           (finish_blocked_without_signature india_2025_11_05 NoResponse
              blank_page eq_refl)))).
Defined.

Lemma failed_lookup_is_swallowed_witness :
  lookup_failed NoResponse = true
  /\ isExistingCustomer
       (snd (run (fetchExistingConsent india_2025_11_05 NoResponse
                    (trim (value (mobileNumberInput
                                    (page_with_mobile (js "9876543210"))))))
               (snd (run reset_prefill (page_with_mobile (js "9876543210"))))))
     = false.
Proof.
  split; [reflexivity|].
  exact (proj1 (proj2 (proj2
           (failed_lookup_is_swallowed india_2025_11_05 NoResponse
              (page_with_mobile (js "9876543210")) eq_refl)))).
Defined.

(** *** The date of birth *)

Section Dates.

Variable env : Env.

Local Open Scope Z_scope.

Lemma MakeDay_civil y m d :
  0 <= m <= 11 -> MakeDay y m d = days_from_civil y (m + 1) d.
Proof.
  intros Hm. unfold MakeDay.
  rewrite (Z.div_small m 12), (Z.mod_small m 12) by lia.
  rewrite Z.add_0_r. unfold days_from_civil. lia.
Qed.

(** The verdict on a date of birth [k] days after the day two years before
    today, when both days fall in the same month. *)
Lemma dob_after_boundary (k : Z) (s : jsstr) :
  let y := getFullYear env - 2 in
  let m := getMonth env in
  let d := getDate env in
  102 <= getFullYear env -> 0 <= m <= 11 ->
  1 <= d + k <= days_in_month y (m + 1) ->
  parse_ymd s = Some (y, m + 1, d + k) ->
  exists t, Date_parse env s = Some t
    /\ (Date_local env y m d <? t)
       = (0 <? k * 1440 + tz_offset_minutes env).
Proof.
  intros y m d Hy Hm Hd Hs.
  exists (days_from_civil y (m + 1) (d + k) * msPerDay). split.
  - unfold Date_parse. rewrite Hs.
    replace ((1 <=? m + 1) && (m + 1 <=? 12) && (1 <=? d + k)
             && (d + k <=? days_in_month y (m + 1))) with true; [done|].
    symmetry. repeat (apply andb_true_intro; split); apply Z.leb_le; lia.
  - unfold Date_local.
    replace ((0 <=? y) && (y <=? 99)) with false.
    2:{ symmetry. apply andb_false_intro2. apply Z.leb_gt. unfold y. lia. }
    rewrite MakeDay_civil by done.
    assert (E : days_from_civil y (m + 1) (d + k)
                = days_from_civil y (m + 1) d + k).
    { unfold days_from_civil. lia. }
    rewrite E. unfold msPerDay, msPerMinute.
    destruct (Z.ltb_spec 0 (k * 1440 + tz_offset_minutes env));
      [apply Z.ltb_lt | apply Z.ltb_ge]; lia.
Qed.
End Dates.

(** C1 (the code departs from it): in a browser in India on 5 November 2025
    a child born on 5 November 2023, the day two years before today, is
    rejected as not yet two years old. *)
Theorem boundary_dob_rejected_in_india :
  let env := india_2025_11_05 in
  let r := run (validateChildren env) boundary_page in
  parse_ymd (js "2023-11-05")
  = Some (getFullYear env - 2, getMonth env + 1, getDate env)%Z
  /\ fst r = Normal false
  /\ child_groups (childrenContainer (snd r))
     = [appendChild (error_span (js "Child must be at least 2 years old."))
          (child_group_of 1 (js "B") [] (js "2023-11-05"))].
Proof. vm_compute. repeat split. Qed.

(** *** Further properties of the validators and the handlers *)

Section More.

Variable env : Env.

Lemma addChildGroup_run child st :
  run (addChildGroup env child) st = (Throw (ReferenceError "dobHint"), st).
Proof. reflexivity. Qed.

(** X1: [addChildGroup] never adds a row: for every argument and every
    page it throws at the read of [dobHint] and leaves the page as it was;
    so does a click on the Add child button. *)
Theorem addChildGroup_never_adds (child : ChildObj) (st : Page) :
  run (addChildGroup env child) st = (Throw (ReferenceError "dobHint"), st)
  /\ run (addChildBtn_click env) st = (Throw (ReferenceError "dobHint"), st).
Proof. split; reflexivity. Qed.

Lemma forEach_addChildGroup_run cs st :
  run (forEach (addChildGroup env) cs) st
  = (match cs with [] => Normal tt | _ :: _ => Throw (ReferenceError "dobHint") end, st).
Proof. destruct cs; reflexivity. Qed.

Lemma validateMobile_run st :
  let mobile := trim (value (mobileNumberInput st)) in
  run validateMobile st
  = if ten_digits_from_6_to_9 mobile
    then (Normal true, upd_mobileNumberError (set_display (js "none")) st)
    else (Normal false,
          upd_mobileNumberError (set_display (js "block"))
            (upd_mobileNumberError (set_textContent invalid_mobile_message)
               (upd_mobileNumberError (set_display (js "none")) st))).
Proof.
  intros mobile. unfold validateMobile.
  rewrite run_bind. cbn [run get]. fold mobile.
  rewrite run_bind. cbn [run modify].
  rewrite mobileRegex_test.
  destruct (ten_digits_from_6_to_9 mobile); reflexivity.
Qed.

Lemma fetchExistingConsent_run (net : Fetched LookupJson) mobile st :
  exists st',
    run (fetchExistingConsent env net mobile) st = (Normal tt, st')
    /\ steps st' = steps st
    /\ requests st' = requests st ++ [GetConsent mobile]
    /\ alerts st' = alerts st
    /\ location_href st' = location_href st
    /\ mobileNumberInput st' = mobileNumberInput st
    /\ (childrenContainer st' = [] \/ childrenContainer st' = childrenContainer st).
Proof.
  destruct st.
  destruct net as [|[|] status text [[|[|] [[pn cs]|] [pn' cs']]|]];
    try (eexists; split; [reflexivity|]; cbn; repeat split; auto; fail).
  - destruct pn as [[|x pn]|], cs as [[|c cs]|];
      (eexists; split; [reflexivity|]; cbn; repeat split; auto).
  - destruct pn' as [[|x pn]|], cs' as [[|c cs]|];
      (eexists; split; [reflexivity|]; cbn; repeat split; auto).
Qed.


(** X2: a click on Next in step 1 never shows another step.  With a mobile
    number that is not valid nothing is requested and the handler returns;
    with a valid one exactly one lookup is sent for the trimmed number, the
    container ends without a child row and the handler ends in the
    exception of [addChildGroup], whatever the network answers. *)
Theorem nextToDetailsBtn_click_outcome (net : Fetched LookupJson) (st : Page) :
  let mobile := trim (value (mobileNumberInput st)) in
  let r := run (nextToDetailsBtn_click env net) st in
  steps (snd r) = steps st
  /\ fst r = (if ten_digits_from_6_to_9 mobile
              then Throw (ReferenceError "dobHint") else Normal tt)
  /\ requests (snd r)
     = requests st ++ (if ten_digits_from_6_to_9 mobile
                       then [GetConsent mobile] else [])
  /\ childrenContainer (snd r)
     = (if ten_digits_from_6_to_9 mobile then [] else childrenContainer st).
Proof.
  intros mobile r. unfold r, nextToDetailsBtn_click.
  rewrite run_bind, validateMobile_run. fold mobile.
  destruct (ten_digits_from_6_to_9 mobile); cbn [negb].
  2:{ cbn. rewrite app_nil_r. done. }
  rewrite run_bind, reset_prefill_run.
  rewrite run_bind. cbn [run get].
  set (st0 := upd_childrenContainer _ _).
  rewrite run_bind.
  destruct (fetchExistingConsent_run net
              (trim (value (mobileNumberInput st0))) st0)
    as (st' & -> & Hs & Hr & _ & _ & _ & Hc).
  assert (Hc' : childrenContainer st' = []) by (destruct Hc as [->| ->]; done).
  rewrite run_bind. cbn [run modify].
  rewrite run_bind. cbn [run get].
  rewrite run_bind. cbn [run modify].
  rewrite run_bind. cbn [run get].
  rewrite run_bind.
  replace (length (childrenContainer _) =? 0)%nat with true
    by (cbn; by rewrite Hc').
  rewrite addChildGroup_run. cbn [fst snd].
  destruct st'. cbn in *. subst. repeat split; done.
Qed.

Lemma truthy_dropWhile f s : truthy (dropWhile f s) = existsb (fun c => negb (f c)) s.
Proof.
  induction s as [|c s IH]; simpl; [done|].
  destruct (f c); simpl; done.
Qed.

Lemma existsb_dropWhile f s :
  existsb (fun c => negb (f c)) (dropWhile f s) = existsb (fun c => negb (f c)) s.
Proof.
  induction s as [|c s IH]; simpl; [done|].
  destruct (f c) eqn:E; simpl; [done|]. by rewrite E.
Qed.

Lemma truthy_rev (s : jsstr) : truthy (rev s) = truthy s.
Proof.
  destruct s as [|c s]; simpl; [done|].
  by destruct (rev s).
Qed.

Lemma existsb_rev {A} (f : A -> bool) l : existsb f (rev l) = existsb f l.
Proof.
  induction l as [|x l IH]; simpl; [done|].
  rewrite existsb_app, IH. simpl. rewrite orb_false_r. apply orb_comm.
Qed.

Lemma truthy_trim s : truthy (trim s) = existsb visible s.
Proof.
  unfold trim, trimEnd, trimStart, visible.
  rewrite truthy_rev, truthy_dropWhile, existsb_rev.
  apply existsb_dropWhile.
Qed.

Lemma validateParentNameIfNeeded_run st :
  run validateParentNameIfNeeded st
  = let st1 := upd_parentNameError (set_display (js "none")) st in
    if isExistingCustomer st || truthy (trim (value (parentNameInput st)))
    then (Normal true, st1)
    else (Normal false,
          upd_parentNameError (set_display (js "block"))
            (upd_parentNameError (set_textContent (js "Please enter your name."))
               st1)).
Proof.
  unfold validateParentNameIfNeeded.
  rewrite run_bind. cbn [run modify]. rewrite run_bind. cbn [run get].
  change (isExistingCustomer (upd_parentNameError _ st))
    with (isExistingCustomer st).
  destruct (isExistingCustomer st); [reflexivity|].
  change (parentNameInput (upd_parentNameError _ st)) with (parentNameInput st).
  destruct (truthy (trim (value (parentNameInput st)))); reflexivity.
Qed.

(** X5: the parent name passes exactly for an existing customer or for a
    name with at least one character that is not white space; the error is
    put on display with its text exactly when it does not pass, and the
    name field and the child rows are left alone. *)
Theorem validateParentNameIfNeeded_verdict (st : Page) :
  let r := run validateParentNameIfNeeded st in
  let ok := isExistingCustomer st
            || existsb visible (value (parentNameInput st)) in
  fst r = Normal ok
  /\ display (parentNameError (snd r)) = (if ok then js "none" else js "block")
  /\ (if ok then textContent (parentNameError (snd r))
                 = textContent (parentNameError st)
      else textContent (parentNameError (snd r)) = js "Please enter your name.")
  /\ parentNameInput (snd r) = parentNameInput st
  /\ childrenContainer (snd r) = childrenContainer st.
Proof.
  cbv zeta. rewrite validateParentNameIfNeeded_run, truthy_trim. cbv zeta.
  destruct (isExistingCustomer st || existsb visible (value (parentNameInput st)));
    repeat split; reflexivity.
Qed.

Lemma digit_visible c : is_digit c = true -> visible c = true.
Proof.
  unfold is_digit. intros [H1 H2]%andb_prop.
  apply N.leb_le in H1, H2.
  assert (c = 48 \/ c = 49 \/ c = 50 \/ c = 51 \/ c = 52 \/ c = 53 \/ c = 54
          \/ c = 55 \/ c = 56 \/ c = 57)%N as H by lia.
  repeat (destruct H as [-> | H]; [reflexivity|]). by subst.
Qed.

Lemma dropWhile_visible s :
  forallb visible s = true -> dropWhile is_space s = s.
Proof.
  destruct s as [|c s]; simpl; [done|].
  unfold visible at 1. by destruct (is_space c).
Qed.

Lemma forallb_rev {A} (f : A -> bool) l : forallb f (rev l) = forallb f l.
Proof.
  induction l as [|x l IH]; simpl; [done|].
  rewrite forallb_app, IH. simpl. rewrite andb_true_r. apply andb_comm.
Qed.

Lemma trim_visible s : forallb visible s = true -> trim s = s.
Proof.
  intros H. unfold trim, trimEnd, trimStart.
  rewrite (dropWhile_visible s H).
  rewrite dropWhile_visible by (by rewrite forallb_rev).
  apply rev_involutive.
Qed.

Lemma forallb_impl {A} (f g : A -> bool) l :
  (forall x, f x = true -> g x = true) ->
  forallb f l = true -> forallb g l = true.
Proof.
  intros Hi. induction l as [|x l IH]; simpl; [done|].
  intros [Hx Hl]%andb_prop. by rewrite (Hi _ Hx), IH.
Qed.

Lemma filter_all {A} (f : A -> bool) l :
  forallb f l = true -> List.filter f l = l.
Proof.
  induction l as [|x l IH]; simpl; [done|].
  intros [-> Hl]%andb_prop. by rewrite IH.
Qed.

(** X6: on the value the input listener leaves in the field, trimming
    changes nothing: [validateMobile] passes exactly when the value itself
    matches the pattern, ten digits of which the first is 6 to 9. *)
Theorem sanitised_mobile_validated_as_typed (st : Page) :
  let st' := snd (run mobileNumberInput_input st) in
  let v := value (mobileNumberInput st') in
  fst (run validateMobile st') = Normal (ten_digits_from_6_to_9 v)
  /\ RegExp_test mobileRegex v = ten_digits_from_6_to_9 v.
Proof.
  intros st' v.
  assert (Hd : forallb is_digit v = true).
  { unfold v, st'. cbn. apply forallb_take, remove_non_digits_digits. }
  assert (Ht : trim v = v).
  { apply trim_visible. eapply forallb_impl; [apply digit_visible|exact Hd]. }
  split; [|apply mobileRegex_test].
  rewrite validateMobile_run. fold v. rewrite Ht.
  by destruct (ten_digits_from_6_to_9 v).
Qed.

Lemma mobileNumberInput_input_run st :
  run mobileNumberInput_input st
  = (Normal tt,
     upd_childrenContainer (fun _ => [])
       (upd_parentNameInput (set_value [])
          (upd_parentNameInput (set_readOnly false)
             (set_isExistingCustomer false
                (upd_mobileNumberInput
                   (fun e => set_value (slice0 10 (remove_non_digits (value e))) e)
                   st))))).
Proof. reflexivity. Qed.

(** X7: the input listener is idempotent: a second input event without an
    edit in between leaves the page as the first one left it. *)
Theorem mobileNumberInput_input_idempotent (st : Page) :
  run mobileNumberInput_input (snd (run mobileNumberInput_input st))
  = run mobileNumberInput_input st.
Proof.
  assert (H : forall v, slice0 10 (remove_non_digits (slice0 10 (remove_non_digits v)))
                      = slice0 10 (remove_non_digits v)).
  { intros v. unfold slice0, remove_non_digits.
    rewrite (filter_all is_digit (take 10 _))
      by apply forallb_take, remove_non_digits_digits.
    by rewrite take_take. }
  rewrite !mobileNumberInput_input_run. cbn [snd]. f_equal.
  destruct st as [? ? ? ? [] ? ? ? ? ? ? ? ? ? ? ? ?].
  cbv [upd_childrenContainer upd_parentNameInput upd_mobileNumberInput
       set_isExistingCustomer set_value set_readOnly
       step1_active step2_active step3_active parentNameInput mobileNumberInput
       parentNameError mobileNumberError childrenContainer parentNameSection
       finishBtn consentTextDiv signaturePad_isEmpty signaturePad_dataURL
       isExistingCustomer alerts requests location_href
       tagName classList e_id e_type textContent value placeholder required
       readOnly disabled display backgroundColor marginTop].
  by rewrite H.
Qed.

Lemma has_inputs_inv g :
  has_inputs g = true ->
  exists n d b, querySelector sel_name g = Some n
    /\ querySelector sel_displayName g = Some d
    /\ querySelector sel_dob g = Some b.
Proof.
  unfold has_inputs. cbn [forallb]. rewrite andb_true_r.
  intros [H1 [H2 H3]%andb_prop]%andb_prop.
  apply bool_decide_eq_true in H1 as [n Hn], H2 as [d Hd], H3 as [b Hb].
  eauto 10.
Qed.

(** The callback of the loop of [getChildData]. *)
Local Abbreviation collect :=
  (fun (data : list ChildData) (group : Group) =>
     match querySelector sel_name group with
     | None => throw (TypeError "nameInput is null")
     | Some nameInput =>
         match querySelector sel_displayName group with
         | None => throw (TypeError "displayNameInput is null")
         | Some displayNameInput =>
             match querySelector sel_dob group with
             | None => throw (TypeError "dobInput is null")
             | Some dobInput =>
                 mret (data ++
                         [mkChildData (Some (trim (value nameInput))) None
                            (Some (trim (value displayNameInput)))
                            (Some (value dobInput))])
             end
         end
     end).

Lemma getChildData_loop gs acc st :
  forallb has_inputs gs = true ->
  run (foldM collect acc gs) st = (Normal (acc ++ map child_data_of gs), st).
Proof.
  revert acc. induction gs as [|g gs IH]; intros acc H.
  - cbn. by rewrite app_nil_r.
  - cbn [forallb] in H. apply andb_prop in H as [Hg Hgs].
    destruct (has_inputs_inv g Hg) as (n & d & b & Hn & Hd & Hb).
    cbn [foldM]. rewrite run_bind, Hn, Hd, Hb. cbn [run mret M_ret].
    rewrite (IH _ Hgs). cbn [map]. rewrite <- app_assoc.
    unfold child_data_of, input_value. by rewrite Hn, Hd, Hb.
Qed.

Lemma getChildData_run st :
  forallb has_inputs (child_groups (childrenContainer st)) = true ->
  run getChildData st
  = (Normal (map child_data_of (child_groups (childrenContainer st))), st).
Proof.
  intros H. unfold getChildData. rewrite run_bind. cbn [run get].
  by rewrite getChildData_loop.
Qed.

(** X8: when every child record has its three inputs, [getChildData]
    returns one entry per record, in the order of the records, with the
    trimmed legal and display name and the date as it stands, and leaves
    the page alone. *)
Theorem getChildData_complete (st : Page) :
  forallb has_inputs (child_groups (childrenContainer st)) = true ->
  let r := run getChildData st in
  fst r = Normal (map child_data_of (child_groups (childrenContainer st)))
  /\ snd r = st.
Proof. intros H. cbv zeta. by rewrite getChildData_run. Qed.

Lemma getChildData_loop_throws gs acc st :
  forallb has_inputs gs = false ->
  exists what, run (foldM collect acc gs) st = (Throw (TypeError what), st).
Proof.
  revert acc. induction gs as [|g gs IH]; intros acc H; [done|].
  cbn [forallb] in H. cbn [foldM]. rewrite run_bind.
  destruct (querySelector sel_name g) as [n|] eqn:Hn; [|by eexists].
  destruct (querySelector sel_displayName g) as [d|] eqn:Hd; [|by eexists].
  destruct (querySelector sel_dob g) as [b|] eqn:Hb; [|by eexists].
  cbn [run mret M_ret]. apply IH.
  unfold has_inputs in H. cbn [forallb] in H.
  rewrite Hn, Hd, Hb in H. exact H.
Qed.

(** X9: when some child record lacks one of its inputs, [getChildData]
    throws a TypeError (a property read on null) and leaves the page
    alone. *)
Theorem getChildData_incomplete (st : Page) :
  forallb has_inputs (child_groups (childrenContainer st)) = false ->
  exists what, run getChildData st = (Throw (TypeError what), st).
Proof.
  intros H. unfold getChildData. rewrite run_bind. cbn [run get].
  by apply getChildData_loop_throws.
Qed.


Lemma upd_childrenContainer_twice F X st :
  upd_childrenContainer F (upd_childrenContainer (fun _ => X) st)
  = upd_childrenContainer (fun _ => F X) st.
Proof. by destruct st. Qed.

Lemma child_groups_remove_child_errors nodes :
  child_groups (remove_child_errors nodes)
  = map strip_errors (child_groups nodes).
Proof.
  induction nodes as [|[g|e] nodes IH]; simpl; [done| |].
  - by rewrite IH.
  - by destruct (keep e).
Qed.

Lemma map_groups_from_ext f f' n nodes :
  (forall i g, child_groups nodes !! i = Some g -> f (n + i)%nat g = f' (n + i)%nat g) ->
  map_groups_from n f nodes = map_groups_from n f' nodes.
Proof.
  revert n. induction nodes as [|[g|e] nodes IH]; intros n H; simpl; [done| |].
  - f_equal.
    + f_equal. specialize (H 0%nat g eq_refl). by rewrite Nat.add_0_r in H.
    + apply IH. intros i g' Hi. specialize (H (S i) g' Hi).
      by replace (S n + i)%nat with (n + S i)%nat by lia.
  - f_equal. by apply IH.
Qed.

Lemma map_groups_from_fuse f f' n nodes :
  map_groups_from n f (map_groups_from n f' nodes)
  = map_groups_from n (fun i g => f i (f' i g)) nodes.
Proof.
  revert n. induction nodes as [|[g|e] nodes IH]; intros n; simpl; [done| |];
    by rewrite IH.
Qed.

Lemma validate_group_run valid k g st :
  child_groups (childrenContainer st) !! k = Some g ->
  has_name_dob g = true ->
  run (validate_group env valid k) st
  = match group_error env g with
    | Some m =>
        (Normal false,
         upd_childrenContainer
           (map_groups (fun i g => if (i =? k)%nat
                                   then appendChild (error_span m) g else g))
           st)
    | None => (Normal valid, st)
    end.
Proof.
  intros Hk [Hn Hd]%andb_prop.
  apply bool_decide_eq_true in Hn as [n Hn], Hd as [d Hd].
  unfold validate_group. rewrite run_bind.
  unfold group_at. rewrite run_bind. cbn [run get mret M_ret]. rewrite Hk.
  unfold group_error, input_value. rewrite Hn, Hd. cbv zeta.
  rewrite <- truthy_trim.
  destruct (truthy (trim (value n))); cbn [negb orb]; [|reflexivity].
  destruct (truthy (value d)); cbn [negb]; [|reflexivity].
  fold (twoYearsAgoDate env).
  destruct (Date_parse env (value d)) as [t|]; [|reflexivity].
  destruct (twoYearsAgoDate env <? t)%Z; reflexivity.
Qed.

(** The container while the loop of [validateChildren] runs: the first [j]
    records carry their verdict. *)
Local Abbreviation partial j nodes :=
  (map_groups (fun i g => if (i <? j)%nat then mark env g else g) nodes).

Lemma child_groups_partial j nodes :
  child_groups (partial j nodes)
  = imap (fun i g => if (i <? j)%nat then mark env g else g) (child_groups nodes).
Proof. unfold map_groups. by rewrite child_groups_map_groups_from. Qed.

Lemma validate_group_step valid j g nodes st :
  child_groups nodes !! j = Some g ->
  has_name_dob g = true ->
  run (validate_group env valid j)
      (upd_childrenContainer (fun _ => partial j nodes) st)
  = (Normal (valid && accepted env g),
     upd_childrenContainer (fun _ => partial (S j) nodes) st).
Proof.
  intros Hj Hg.
  rewrite (validate_group_run valid j g).
  2:{ change (childrenContainer (upd_childrenContainer _ st))
        with (partial j nodes).
      rewrite child_groups_partial, list_lookup_imap, Hj. simpl.
      by rewrite Nat.ltb_irrefl. }
  2: exact Hg.
  unfold accepted. destruct (group_error env g) as [m|] eqn:Hm.
  - rewrite andb_false_r, upd_childrenContainer_twice. f_equal.
    apply (f_equal (fun X => upd_childrenContainer (fun _ => X) st)).
    unfold map_groups. rewrite map_groups_from_fuse.
    apply map_groups_from_ext. intros i g' Hi. simpl.
    destruct (Nat.eqb_spec i j) as [->|Hne].
    + rewrite Hj in Hi. injection Hi as <-.
      rewrite Nat.ltb_irrefl.
      replace (j <? S j)%nat with true by (symmetry; apply Nat.ltb_lt; lia).
      unfold mark. by rewrite Hm.
    + replace (i <? S j)%nat with (i <? j)%nat; [done|].
      destruct (Nat.ltb_spec i j), (Nat.ltb_spec i (S j)); try done; lia.
  - rewrite andb_true_r. f_equal.
    apply (f_equal (fun X => upd_childrenContainer (fun _ => X) st)).
    apply map_groups_from_ext. intros i g' Hi. simpl.
    destruct (Nat.eqb_spec i j) as [->|Hne].
    + rewrite Hj in Hi. injection Hi as <-.
      rewrite Nat.ltb_irrefl.
      replace (j <? S j)%nat with true by (symmetry; apply Nat.ltb_lt; lia).
      unfold mark. by rewrite Hm.
    + replace (i <? S j)%nat with (i <? j)%nat; [done|].
      destruct (Nat.ltb_spec i j), (Nat.ltb_spec i (S j)); try done; lia.
Qed.

Lemma validate_loop nodes st m :
  forallb has_name_dob (child_groups nodes) = true ->
  forall j valid,
    (j + m = length (child_groups nodes))%nat ->
    run (foldM (validate_group env) valid (seq j m))
        (upd_childrenContainer (fun _ => partial j nodes) st)
    = (Normal (valid
               && forallb (accepted env) (take m (drop j (child_groups nodes)))),
       upd_childrenContainer (fun _ => partial (j + m) nodes) st).
Proof.
  intros Hall. induction m as [|m IH]; intros j valid Hlen.
  - cbn [seq foldM run mret M_ret take forallb].
    by rewrite andb_true_r, Nat.add_0_r.
  - destruct (lookup_lt_is_Some_2 (child_groups nodes) j) as [g Hg]; [lia|].
    assert (Hgood : has_name_dob g = true).
    { apply Is_true_true, forallb_True in Hall.
      apply Is_true_true. by apply (proj1 (Forall_lookup _ _) Hall j g). }
    cbn [seq foldM]. rewrite run_bind.
    rewrite (validate_group_step valid j g) by done.
    rewrite IH by lia.
    rewrite (drop_S _ _ _ Hg). cbn [take forallb].
    rewrite andb_assoc. f_equal.
    by replace (S j + m)%nat with (j + S m)%nat by lia.
Qed.

Lemma map_groups_from_id f n nodes :
  (forall i g, f i g = g) -> map_groups_from n f nodes = nodes.
Proof.
  intros Hf. revert n.
  induction nodes as [|[g|e] nodes IH]; intros n; simpl; [done| |];
    by rewrite ?Hf, IH.
Qed.

Lemma validateChildren_run st :
  let gs := map strip_errors (child_groups (childrenContainer st)) in
  child_groups (childrenContainer st) <> [] ->
  forallb has_name_dob gs = true ->
  run (validateChildren env) st
  = (Normal (forallb (accepted env) gs),
     upd_childrenContainer
       (fun _ => map_groups (fun _ g => mark env g)
                   (remove_child_errors (childrenContainer st))) st).
Proof.
  intros gs Hne Hall. unfold validateChildren.
  rewrite run_bind. cbn [run get]. rewrite run_bind. cbn [run modify].
  destruct (child_groups (childrenContainer st)) as [|g0 rest] eqn:Hgs; [done|].
  cbn [length Nat.eqb].
  set (nodes := remove_child_errors (childrenContainer st)).
  assert (Hcg : child_groups nodes = gs).
  { unfold nodes, gs. by rewrite child_groups_remove_child_errors, Hgs. }
  assert (E0 : upd_childrenContainer remove_child_errors st
               = upd_childrenContainer (fun _ => partial 0 nodes) st).
  { unfold map_groups. rewrite map_groups_from_id by done. by destruct st. }
  assert (Hlen : length (child_groups nodes) = S (length rest)).
  { rewrite Hcg. unfold gs. simpl. by rewrite length_map. }
  rewrite E0.
  rewrite (validate_loop nodes st (S (length rest)) ltac:(by rewrite Hcg) 0 true)
    by (symmetry; exact Hlen).
  cbn [andb drop]. rewrite take_ge by (apply Nat.eq_le_incl; exact Hlen).
  rewrite Hcg. f_equal.
  apply (f_equal (fun X => upd_childrenContainer (fun _ => X) st)).
  apply map_groups_from_ext. intros i g Hi. simpl.
  replace (i <? S (length rest))%nat with true; [done|].
  symmetry. apply Nat.ltb_lt.
  apply lookup_lt_Some in Hi. rewrite Hlen in Hi. lia.
Qed.


(** X10: on a container with at least one child record, each with its name
    and date input, [validateChildren] returns whether every record is
    accepted; afterwards the records are the ones before without their old
    error texts, each rejected one with exactly its new error text, in the
    same order, and the rest of the page is as it was. *)
Theorem validateChildren_verdicts (st : Page) :
  let gs := map strip_errors (child_groups (childrenContainer st)) in
  let r := run (validateChildren env) st in
  child_groups (childrenContainer st) <> [] ->
  forallb has_name_dob gs = true ->
  fst r = Normal (forallb (accepted env) gs)
  /\ child_groups (childrenContainer (snd r)) = map (mark env) gs
  /\ upd_childrenContainer (fun _ => []) (snd r)
     = upd_childrenContainer (fun _ => []) st.
Proof.
  intros gs r Hne Hall. unfold r.
  rewrite (validateChildren_run st Hne Hall). cbn [fst snd].
  split; [done|]. split.
  - change (childrenContainer (upd_childrenContainer _ st))
      with (map_groups (fun _ g => mark env g)
              (remove_child_errors (childrenContainer st))).
    unfold map_groups.
    rewrite child_groups_map_groups_from, child_groups_remove_child_errors.
    apply imap_const.
  - by rewrite upd_childrenContainer_twice.
Qed.

Lemma filter_keep_twice (l : list Element) :
  List.filter keep (List.filter keep l) = List.filter keep l.
Proof.
  induction l as [|e l IH]; simpl; [done|].
  destruct (keep e) eqn:E; simpl; [|done]. by rewrite E, IH.
Qed.

Lemma strip_mark_strip g :
  strip_errors (mark env (strip_errors g)) = strip_errors g.
Proof.
  unfold mark. destruct (group_error env (strip_errors g)) as [m|].
  - unfold strip_errors, appendChild. cbn [kids dataset_index]. f_equal.
    rewrite List.filter_app, filter_keep_twice. cbn. apply app_nil_r.
  - unfold strip_errors. cbn [kids dataset_index]. f_equal.
    apply filter_keep_twice.
Qed.

Lemma remove_child_errors_marked n nodes :
  remove_child_errors
    (map_groups_from n (fun _ g => mark env g) (remove_child_errors nodes))
  = remove_child_errors nodes.
Proof.
  revert n. induction nodes as [|[g|e] nodes IH]; intros n; simpl; [done| |].
  - rewrite IH. f_equal. f_equal. apply (strip_mark_strip g).
  - destruct (keep e) eqn:E; simpl; [|done]. by rewrite E, IH.
Qed.

(** X11: errors do not pile up: validating a second time gives the verdict
    and the page of the first validation. *)
Theorem validateChildren_idempotent (st : Page) :
  let gs := map strip_errors (child_groups (childrenContainer st)) in
  child_groups (childrenContainer st) <> [] ->
  forallb has_name_dob gs = true ->
  run (validateChildren env) (snd (run (validateChildren env) st))
  = run (validateChildren env) st.
Proof.
  intros gs Hne Hall.
  rewrite (validateChildren_run st Hne Hall). cbn [snd].
  set (nodes1 := remove_child_errors (childrenContainer st)).
  set (T := upd_childrenContainer _ st).
  assert (HT : childrenContainer T
               = map_groups (fun _ g => mark env g) nodes1) by by destruct st.
  assert (Hcg : child_groups (childrenContainer T) = map (mark env) gs).
  { rewrite HT. unfold map_groups, nodes1.
    rewrite child_groups_map_groups_from, child_groups_remove_child_errors.
    apply imap_const. }
  assert (Hstrip : map strip_errors (map (mark env) gs) = gs).
  { unfold gs. rewrite !map_map. apply map_ext. intros g.
    apply strip_mark_strip. }
  rewrite validateChildren_run.
  - rewrite Hcg, Hstrip. f_equal. unfold T.
    rewrite upd_childrenContainer_twice.
    apply (f_equal (fun X => upd_childrenContainer (fun _ => X) st)).
    change (childrenContainer (upd_childrenContainer _ st))
      with (map_groups (fun _ g => mark env g) nodes1).
    unfold map_groups at 2. unfold nodes1.
    by rewrite remove_child_errors_marked.
  - rewrite Hcg. unfold gs.
    destruct (child_groups (childrenContainer st)); [done|discriminate].
  - by rewrite Hcg, Hstrip.
Qed.


(** X12: for a single named child whose date of birth is [k] days after the
    day two years before today (both in the same month), validation passes
    exactly when [k] days plus the offset of local time from UTC is not
    positive: the boundary day itself ([k = 0]) passes only where local time
    is not ahead of UTC, and a later day never passes in a real time
    zone. *)
Theorem dob_boundary_verdict (st : Page) (g : Group) (k : Z) :
  let y := (getFullYear env - 2)%Z in
  let m := getMonth env in
  let d := getDate env in
  (102 <= getFullYear env)%Z -> (0 <= m <= 11)%Z ->
  (1 <= d + k <= days_in_month y (m + 1))%Z ->
  map strip_errors (child_groups (childrenContainer st)) = [g] ->
  has_name_dob g = true ->
  existsb visible (input_value sel_name g) = true ->
  parse_ymd (input_value sel_dob g) = Some (y, m + 1, d + k)%Z ->
  fst (run (validateChildren env) st)
  = Normal (k * 1440 + tz_offset_minutes env <=? 0)%Z.
Proof.
  intros y m d Hy Hm Hd Hgs Hg Hname Hdob.
  rewrite validateChildren_run.
  2:{ intros E. by rewrite E in Hgs. }
  2:{ rewrite Hgs. cbn [forallb]. by rewrite Hg. }
  rewrite Hgs. cbn [fst forallb]. rewrite andb_true_r. f_equal.
  unfold accepted, group_error. cbv zeta. rewrite Hname.
  assert (Ht : truthy (input_value sel_dob g) = true).
  { destruct (input_value sel_dob g); [discriminate Hdob|done]. }
  rewrite Ht. cbn [negb orb].
  destruct (dob_after_boundary env k (input_value sel_dob g) Hy Hm Hd Hdob)
    as (t & -> & Hlt).
  unfold twoYearsAgoDate. rewrite Hlt.
  destruct (Z.ltb_spec 0 (k * 1440 + tz_offset_minutes env)),
    (Z.leb_spec (k * 1440 + tz_offset_minutes env) 0); try done; lia.
Qed.


Lemma finishBtn_click_run (net : Fetched SubmitJson) (st : Page) :
  signaturePad_isEmpty st = false ->
  existsb visible (value (mobileNumberInput st)) = true ->
  forallb has_inputs (child_groups (childrenContainer st)) = true ->
  run (finishBtn_click env net) st
  = run (try_finally
          (try_catch
             (modify (upd_finishBtn (set_disabled true));;
              modify (upd_finishBtn
                        (set_textContent (js "Submitting" ++ [8230%N])));;
              response ← fetch (PostConsent (payload_of st)) net;
              let '(ok, status, errorText, body) := response in
              (if negb ok then
                 throw (Error (js "Failed to submit consent: "
                               ++ decimal status ++ js " - " ++ errorText))
               else mret tt);;
              result ← response_json body;
              match result with
              | SValue true _ =>
                  modify (set_location_href (trim (value (mobileNumberInput st))))
              | SValue false message =>
                  if truthy_opt message
                     && includes (js "already submitted") (or_empty message)
                  then alert already_submitted_message
                  else
                    alert (js "Submission failed: "
                           ++ or_empty
                                (or_else_opt message
                                   (Some (js "Unknown error. Please try again."))))
              | SNull => throw (TypeError "result is null")
              end)
             (fun err =>
                alert (js "An error occurred while submitting your consent: "
                       ++ message_of env err
                       ++ js ". Please try again later.")))
          (modify (upd_finishBtn (set_disabled false));;
           modify (upd_finishBtn (set_textContent (js "Finish"))))) st.
Proof.
  intros Hs Hm Hc. unfold finishBtn_click.
  rewrite run_bind. cbn [run get]. rewrite Hs, truthy_trim, Hm. cbn [negb].
  rewrite run_bind, (getChildData_run st Hc). reflexivity.
Qed.


(** X14: with a signature but a blank mobile number a click on Finish only
    shows the message that asks for the number; nothing is sent. *)
Theorem finishBtn_click_without_mobile (net : Fetched SubmitJson) (st : Page) :
  let r := run (finishBtn_click env net) st in
  signaturePad_isEmpty st = false ->
  existsb visible (value (mobileNumberInput st)) = false ->
  fst r = Normal tt
  /\ snd r = push_alert
       (js "Mobile number is missing. Please go back and enter your mobile number.")
       st
  /\ requests (snd r) = requests st.
Proof.
  intros r Hs Hm. unfold r, finishBtn_click.
  rewrite run_bind. cbn [run get]. rewrite Hs, truthy_trim, Hm. cbn [negb].
  repeat split.
Qed.

(** X15: a response that is not OK is reported with its status and its
    body text. *)
Theorem finishBtn_click_http_error (status : nat) (text : jsstr)
    (body : option SubmitJson) (st : Page) :
  let r := run (finishBtn_click env (Response false status text body)) st in
  signaturePad_isEmpty st = false ->
  existsb visible (value (mobileNumberInput st)) = true ->
  forallb has_inputs (child_groups (childrenContainer st)) = true ->
  alerts (snd r)
  = alerts st
    ++ [js "An error occurred while submitting your consent: "
        ++ (js "Failed to submit consent: " ++ decimal status ++ js " - " ++ text)
        ++ js ". Please try again later."].
Proof.
  intros r Hs Hm Hc. unfold r. rewrite (finishBtn_click_run _ st Hs Hm Hc).
  by destruct st.
Qed.

(** X16: when the backend answers OK without [success], a message that
    contains "already submitted" is answered with the guidance for a second
    submission on the same day; any other message is shown after
    "Submission failed: ", and an empty one as an unknown error. *)
Theorem finishBtn_click_already_submitted (status : nat) (text message : jsstr)
    (st : Page) :
  let net := Response true status text (Some (SValue false (Some message))) in
  let r := run (finishBtn_click env net) st in
  signaturePad_isEmpty st = false ->
  existsb visible (value (mobileNumberInput st)) = true ->
  forallb has_inputs (child_groups (childrenContainer st)) = true ->
  alerts (snd r)
  = alerts st
    ++ [if includes (js "already submitted") message
        then already_submitted_message
        else js "Submission failed: "
             ++ (if truthy message then message
                 else js "Unknown error. Please try again.")].
Proof.
  intros net r Hs Hm Hc. unfold r, net.
  rewrite (finishBtn_click_run _ st Hs Hm Hc).
  destruct st. destruct message as [|c message]; [reflexivity|].
  cbn -[includes app already_submitted_message].
  by destruct (includes _ _).
Qed.


(** X4: for a customer the backend knows with at least one child on record,
    [fetchExistingConsent] ends with no child row and with the customer not
    marked as existing; the parent name of the answer, when there is one,
    stays in the field. *)
Theorem prefill_with_children_is_lost (net : Fetched LookupJson)
    (mobile : jsstr) (st : Page) :
  let r := run (fetchExistingConsent env net mobile) st in
  known_with_children net = true ->
  fst r = Normal tt
  /\ isExistingCustomer (snd r) = false
  /\ childrenContainer (snd r) = []
  /\ value (parentNameInput (snd r))
     = (if truthy_opt (answered_name net) then or_empty (answered_name net)
        else value (parentNameInput st)).
Proof.
  intros r H. unfold r. destruct st.
  destruct net as [|[|] status text [[|[|] [[pn cs]|] [pn' cs']]|]];
    try discriminate H; cbn in H.
  - destruct cs as [[|c cs]|]; try discriminate H.
    destruct pn as [[|x pn]|]; cbn; repeat split.
  - destruct cs' as [[|c cs]|]; try discriminate H.
    destruct pn' as [[|x pn]|]; cbn; repeat split.
Qed.


(** X19: reindexing changes no field value, and afterwards the Remove
    button is on display exactly on the records that have one and are not
    the first. *)
Theorem reindexChildren_keeps_fields (st : Page) :
  let gs := child_groups (childrenContainer st) in
  let gs' := child_groups (childrenContainer (snd (run reindexChildren st))) in
  map fields gs' = map fields gs
  /\ map removal_offered gs'
     = imap (fun i g => has_button g && negb (i =? 0)%nat) gs.
Proof.
  cbn. unfold map_groups. rewrite child_groups_map_groups_from.
  change (@map) with (@fmap list _). rewrite !fmap_imap. split.
  - rewrite <- (imap_const fields). apply imap_ext. intros i g _. simpl.
    apply fields_reindex_group.
  - apply imap_ext. intros i g _. simpl.
    apply removal_offered_reindex_group.
Qed.


Lemma has_inputs_name_dob gs :
  forallb has_inputs gs = true -> forallb has_name_dob gs = true.
Proof.
  apply forallb_impl. intros g Hg.
  destruct (has_inputs_inv g Hg) as (n & d & b & Hn & _ & Hb).
  unfold has_name_dob. rewrite Hn, Hb. done.
Qed.

Lemma mark_accepted gs :
  forallb (accepted env) gs = true -> map (mark env) gs = gs.
Proof.
  induction gs as [|g gs IH]; simpl; [done|].
  intros [Hg Hgs]%andb_prop. rewrite (IH Hgs). f_equal.
  unfold accepted in Hg. unfold mark. by destruct (group_error env g).
Qed.

Lemma validateChildren_empty_run st :
  child_groups (childrenContainer st) = [] ->
  run (validateChildren env) st
  = (Throw (ReferenceError "dobHint"),
     upd_childrenContainer remove_child_errors st).
Proof.
  intros H. unfold validateChildren.
  rewrite run_bind. cbn [run get]. rewrite run_bind. cbn [run modify].
  rewrite H. cbn [length Nat.eqb]. rewrite run_bind.
  by rewrite addChildGroup_run.
Qed.

(** X17: with at least one child record, each with its three inputs, a
    click on Next in step 2 shows step 3 exactly when the parent name passes
    and every child is accepted, and then the consent text is composed from
    the trimmed parent name and the children of the form in their order;
    otherwise the step and the consent text stay as they were. *)
Theorem nextToConsentBtn_click_outcome (st : Page) :
  let gs := map strip_errors (child_groups (childrenContainer st)) in
  let named := isExistingCustomer st
               || existsb visible (value (parentNameInput st)) in
  let pass := named && forallb (accepted env) gs in
  let r := run (nextToConsentBtn_click env) st in
  child_groups (childrenContainer st) <> [] ->
  forallb has_inputs gs = true ->
  fst r = Normal tt
  /\ steps (snd r) = (if pass then (false, false, true) else steps st)
  /\ textContent (consentTextDiv (snd r))
     = (if pass
        then composeConsentText (trim (value (parentNameInput st)))
               (map child_data_of gs)
        else textContent (consentTextDiv st)).
Proof.
  intros gs named pass r Hne Hin. unfold r, pass, named, nextToConsentBtn_click.
  rewrite run_bind, validateParentNameIfNeeded_run, truthy_trim. cbv zeta.
  destruct (isExistingCustomer st || existsb visible (value (parentNameInput st)));
    cbn [negb andb]; [|by destruct st].
  set (st1 := upd_parentNameError _ st).
  assert (Hc1 : childrenContainer st1 = childrenContainer st) by by destruct st.
  rewrite run_bind, validateChildren_run;
    rewrite ?Hc1; [|done|by apply has_inputs_name_dob].
  fold gs. destruct (forallb (accepted env) gs) eqn:Hacc; cbn [negb];
    [|by destruct st].
  rewrite run_bind. cbn [run get].
  set (T := upd_childrenContainer _ st1).
  assert (HT : child_groups (childrenContainer T) = gs).
  { change (childrenContainer T)
      with (map_groups (fun _ g => mark env g)
              (remove_child_errors (childrenContainer st))).
    unfold map_groups.
    rewrite child_groups_map_groups_from, child_groups_remove_child_errors.
    transitivity (map (mark env) gs); [apply imap_const|by apply mark_accepted]. }
  rewrite run_bind, getChildData_run by (by rewrite HT).
  rewrite HT.
  change (parentNameInput T) with (parentNameInput st).
  by destruct st.
Qed.

(** X18: without a child record, and with a parent name that passes, a
    click on Next in step 2 ends in the exception of [addChildGroup]: the
    step and the consent text stay as they were and no record is added. *)
Theorem nextToConsentBtn_click_without_children (st : Page) :
  let r := run (nextToConsentBtn_click env) st in
  child_groups (childrenContainer st) = [] ->
  isExistingCustomer st || existsb visible (value (parentNameInput st)) = true ->
  fst r = Throw (ReferenceError "dobHint")
  /\ steps (snd r) = steps st
  /\ child_groups (childrenContainer (snd r)) = []
  /\ consentTextDiv (snd r) = consentTextDiv st.
Proof.
  intros r Hno Hnamed. unfold r, nextToConsentBtn_click.
  rewrite run_bind, validateParentNameIfNeeded_run, truthy_trim, Hnamed.
  cbv zeta. cbn [negb].
  rewrite run_bind, validateChildren_empty_run by (by destruct st).
  cbn [fst snd]. repeat split; try by destruct st.
  change (childrenContainer (upd_childrenContainer remove_child_errors
            (upd_parentNameError (set_display (js "none")) st)))
    with (remove_child_errors (childrenContainer st)).
  by rewrite child_groups_remove_child_errors, Hno.
Qed.

End More.

Lemma prefill_with_children_is_lost_witness :
  known_with_children wrapped_answer = true
  /\ isExistingCustomer
       (snd (run (fetchExistingConsent india_2025_11_05 wrapped_answer
                    (js "9876543210")) blank_page)) = false.
Proof.
  split; [reflexivity|].
  exact (proj1 (proj2
           (prefill_with_children_is_lost india_2025_11_05 wrapped_answer
              (js "9876543210") blank_page eq_refl))).
Defined.

Lemma getChildData_complete_witness :
  forallb has_inputs (child_groups (childrenContainer three_children)) = true
  /\ snd (run getChildData three_children) = three_children.
Proof.
  split; [reflexivity|].
  exact (proj2 (getChildData_complete three_children eq_refl)).
Defined.

Lemma getChildData_incomplete_witness :
  forallb has_inputs (child_groups (childrenContainer broken_form)) = false
  /\ exists what,
       run getChildData broken_form = (Throw (TypeError what), broken_form).
Proof.
  split; [reflexivity|].
  exact (getChildData_incomplete broken_form eq_refl).
Defined.

Lemma three_children_present :
  child_groups (childrenContainer three_children) <> [].
Proof. discriminate. Defined.

Lemma validateChildren_verdicts_witness :
  child_groups (childrenContainer three_children) <> []
  /\ forallb has_name_dob
       (map strip_errors (child_groups (childrenContainer three_children)))
     = true
  /\ fst (run (validateChildren india_2025_11_05) three_children) = Normal true.
Proof.
  split; [exact three_children_present|]. split; [reflexivity|].
  exact (proj1 (validateChildren_verdicts india_2025_11_05 three_children
                  three_children_present eq_refl)).
Defined.

Lemma validateChildren_idempotent_witness :
  child_groups (childrenContainer three_children) <> []
  /\ forallb has_name_dob
       (map strip_errors (child_groups (childrenContainer three_children)))
     = true
  /\ run (validateChildren india_2025_11_05)
       (snd (run (validateChildren india_2025_11_05) three_children))
     = run (validateChildren india_2025_11_05) three_children.
Proof.
  split; [exact three_children_present|]. split; [reflexivity|].
  exact (validateChildren_idempotent india_2025_11_05 three_children
           three_children_present eq_refl).
Defined.

Lemma dob_boundary_verdict_witness :
  fst (run (validateChildren india_2025_11_05) boundary_page) = Normal false.
Proof.
  refine (dob_boundary_verdict india_2025_11_05 boundary_page
            (child_group_of 1 (js "B") [] (js "2023-11-05")) 0 _ _ _
            eq_refl eq_refl eq_refl eq_refl);
    vm_compute; repeat split; discriminate.
Defined.


Lemma finishBtn_click_without_mobile_witness :
  signaturePad_isEmpty signed_blank = false
  /\ existsb visible (value (mobileNumberInput signed_blank)) = false
  /\ requests (snd (run (finishBtn_click india_2025_11_05 NoResponse)
                      signed_blank)) = [].
Proof.
  repeat (split; [reflexivity|]).
  exact (proj2 (proj2
           (finishBtn_click_without_mobile india_2025_11_05 NoResponse
              signed_blank eq_refl eq_refl))).
Defined.

Lemma finishBtn_click_http_error_witness :
  signaturePad_isEmpty filled_form = false
  /\ alerts (snd (run (finishBtn_click india_2025_11_05
                         (Response false 500 (js "down") None)) filled_form))
     = [js "An error occurred while submitting your consent: Failed to submit consent: 500 - down. Please try again later."].
Proof.
  split; [reflexivity|].
  exact (finishBtn_click_http_error india_2025_11_05 500 (js "down") None
           filled_form eq_refl eq_refl eq_refl).
Defined.

Lemma finishBtn_click_already_submitted_witness :
  signaturePad_isEmpty filled_form = false
  /\ alerts (snd (run (finishBtn_click india_2025_11_05
                         (Response true 200 []
                            (Some (SValue false
                                     (Some (js "Consent already submitted today"))))))
                    filled_form))
     = [already_submitted_message].
Proof.
  split; [reflexivity|].
  exact (finishBtn_click_already_submitted india_2025_11_05 200 []
           (js "Consent already submitted today") filled_form
           eq_refl eq_refl eq_refl).
Defined.

Lemma nextToConsentBtn_click_outcome_witness :
  child_groups (childrenContainer filled_form) <> []
  /\ forallb has_inputs
       (map strip_errors (child_groups (childrenContainer filled_form))) = true
  /\ steps (snd (run (nextToConsentBtn_click india_2025_11_05) filled_form))
     = (false, false, true).
Proof.
  assert (H : child_groups (childrenContainer filled_form) <> [])
    by discriminate.
  split; [exact H|]. split; [reflexivity|].
  exact (proj1 (proj2
           (nextToConsentBtn_click_outcome india_2025_11_05 filled_form H
              eq_refl))).
Defined.

Lemma nextToConsentBtn_click_without_children_witness :
  child_groups (childrenContainer named_blank) = []
  /\ fst (run (nextToConsentBtn_click india_2025_11_05) named_blank)
     = Throw (ReferenceError "dobHint").
Proof.
  split; [reflexivity|].
  exact (proj1 (nextToConsentBtn_click_without_children india_2025_11_05
                  named_blank eq_refl eq_refl)).
Defined.
